(** * AKEDOshop: the forecast-and-cart workflow, the apply-updates and
    checkout routines, the retrying fetch wrapper and the API-key proxy

    A shallow embedding of [src/api/gemini.js] (the proxy [handler] and the
    React component [App] with its helpers) and the properties of the
    specification checked against it.

    Conventions of the embedding.
    - A JavaScript number is an IEEE 754 binary64 value: Rocq's primitive
      [float], whose [add], [mul], [div] and [leb] are the operations
      JavaScript's [+], [*], [/] and [<=] perform.  A numeric field that is
      absent reads as [nan]: every use of such a field in the source is
      arithmetic, [parseFloat] or [||], where [undefined] and [NaN] agree.
    - A string field that may be absent is a [string] whose empty value
      stands for the absent one: the source only reads such fields through
      truthiness ([||], [&&], [filter]) or optional chaining, where
      [undefined] and the empty string agree.  [predictedRunOutDate], which
      the source sets to [null], is an [option].
    - [toLowerCase] folds the ASCII letters; other bytes are kept.
    - What the environment decides is an argument: the clock ([now]), the
      identifiers [crypto.randomUUID] returns, the draws of [Math.random],
      whether a batch commit succeeds, what [fetch] answers.
    - A routine returns the trace of its effects on the document store and
      on the component's state.  Setters that only drive the display
      ([setLogMessage], [setCartStatus], [setIsProcessing]) are left out. *)

From Stdlib Require Import ZArith List String Ascii Bool PrimFloat FloatOps SpecFloat
  FloatAxioms.
From stdpp Require Import gmap strings list.

Local Open Scope string_scope.
Local Open Scope list_scope.

(* Decimal literals denote the nearest binary64 value, as they do in
   JavaScript. *)
Set Warnings "-inexact-float".

(** ** JavaScript values *)

Module JS.

(** [x] is truthy: a number other than [0], [-0] and [NaN]. *)
Definition truthy (x : float) : bool := negb (is_zero x || is_nan x).

(** [x || d] on numbers. *)
Definition orNum (x d : float) : float := if truthy x then x else d.

(** [s || d] on strings: the empty string is falsy. *)
Definition orStr (s d : string) : string :=
  match s with EmptyString => d | _ => s end.

(** [!!s] on strings. *)
Definition truthyStr (s : string) : bool :=
  match s with EmptyString => false | _ => true end.

(** [parseFloat(x)] for a number [x]: [x] is printed and read back, which
    gives [x] again except that [-0] prints as ["0"]. *)
Definition parseFloat (x : float) : float := if is_zero x then zero else x.

Definition lowerAscii (c : ascii) : ascii :=
  let n := nat_of_ascii c in
  if (65 <=? n)%nat && (n <=? 90)%nat then ascii_of_nat (n + 32) else c.

(** [s.toLowerCase()]. *)
Fixpoint toLowerCase (s : string) : string :=
  match s with
  | EmptyString => EmptyString
  | String c r => String (lowerAscii c) (toLowerCase r)
  end.

(** [a.includes(v)] on an array of strings. *)
Definition includes (a : list string) (v : string) : bool :=
  existsb (String.eqb v) a.

(** The integer [n] for which [n / 100 - |x|] is closest to zero, the
    larger one on a tie, where [|x|] is [m * 2^e]: the digits
    [Number.prototype.toFixed] prints for two decimals. *)
Definition centsOf (m : positive) (e : Z) : Z :=
  if (0 <=? e)%Z then (Z.pos m * 100 * 2 ^ e)%Z
  else ((2 * (Z.pos m * 100) + 2 ^ (- e)) / 2 ^ (1 - e))%Z.

(** [parseFloat(x.toFixed(2))]: [x] rounded to cents and read back as the
    nearest binary64 value.  From 1e21 on [toFixed] prints [x] as
    [String(x)] does, and reading that back gives [x]. *)
Definition roundCents (x : float) : float :=
  match Prim2SF x with
  | S754_nan => nan
  | S754_infinity _ => x
  | S754_zero _ => zero
  | S754_finite s m e =>
      if (1e21 <=? abs x)%float then x
      else match centsOf m e with
           | Zpos n =>
               SF2Prim (SFdiv prec emax (S754_finite s n 0) (S754_finite false 100 0))
           | _ => if s then neg_zero else zero
           end
  end.

End JS.

(** ** Data model *)

(** A row of the inventory collection, as the snapshot listener hands it to
    the component ([{ ...doc.data(), id: doc.id }]). *)
Module InventoryItem.
Record t := mk {
  id : string;
  name : string;
  quantity : float;
  unit : string;
  restockLevel : float;
  dailyUse : float;
  lastUsed : string;
  predictedRunOutDate : option string;
}.
End InventoryItem.

(** A row of the purchase history. *)
Module HistoryEntry.
Record t := mk {
  item : string;
  quantity : float;
  vendor : string;
  cost : float;
  date : string;
  method : string;
}.
End HistoryEntry.

Module UserConfig.
Record t := mk {
  spendCapMonthly : float;
  currentMonthSpend : float;
  vendorAllowlist : list string;
}.
End UserConfig.

(** An element of [suggestedCart] in the model's answer. *)
Module Suggestion.
Record t := mk {
  name : string;
  quantityToBuy : float;
  reason : string;
  vendor : string;
}.
End Suggestion.

(** An element of [inventoryForecasts] in the model's answer. *)
Module Forecast.
Record t := mk {
  name : string;
  predictedRunOutDate : string;
}.
End Forecast.

(** A line of the suggested cart held in the component's state. *)
Module CartItem.
Record t := mk {
  name : string;
  quantity : float;
  cost : float;
  vendor : string;
  reason : string;
}.
End CartItem.

(** An entry handed to [processUpdates]. *)
Module Update.
Record t := mk {
  name : string;
  quantity : float;
  cost : float;
  vendor : string;
  method : string;
}.
End Update.

(** [initialConfig]. *)
Definition initialConfig : UserConfig.t :=
  UserConfig.mk 500 150 ["Amazon"; "Walmart"].

(** ** Writes, effects and the document store *)

(** A write queued on a Firestore batch. *)
Inductive Write :=
| SetHistory (h : HistoryEntry.t)
    (* batch.set(doc(histRef), h): a new history document *)
| SetInventory (id : string) (it : InventoryItem.t)
    (* batch.set(inventory/id, it): the document is replaced *)
| MergeForecast (id : string) (date : string)
    (* batch.set(inventory/id, { predictedRunOutDate }, { merge: true }) *)
| UpdateSpend (spend : float).
    (* batch.update(config/userConfig, { currentMonthSpend }) *)

(** What a routine does, in order. *)
Inductive Effect :=
| Commit (ws : list Write)            (* batch.commit() resolved *)
| CommitFailed (ws : list Write)      (* batch.commit() rejected *)
| SetDoc (id : string) (it : InventoryItem.t)   (* setDoc(inventory/id, it) *)
| LogAudit (action : string) (about : list string)
| SetSuggestedCart (cart : list CartItem.t)
| RunForecasting                       (* a call of runForecasting() *)
| ConsoleError (what : string).

Record Store := mkStore {
  inventoryDocs : gmap string InventoryItem.t;
  historyDocs : list HistoryEntry.t;
  configDoc : UserConfig.t;
}.

(** The document a merge creates when there is none at that path: only the
    merged field is present. *)
Definition blankItem (id : string) : InventoryItem.t :=
  InventoryItem.mk id "" nan "" nan nan "" None.

Definition withForecast (d : option string) (it : InventoryItem.t) : InventoryItem.t :=
  InventoryItem.mk (InventoryItem.id it) (InventoryItem.name it)
    (InventoryItem.quantity it) (InventoryItem.unit it)
    (InventoryItem.restockLevel it) (InventoryItem.dailyUse it)
    (InventoryItem.lastUsed it) d.

Definition withSpend (v : float) (c : UserConfig.t) : UserConfig.t :=
  UserConfig.mk (UserConfig.spendCapMonthly c) v (UserConfig.vendorAllowlist c).

Definition applyWrite (s : Store) (w : Write) : Store :=
  match w with
  | SetHistory h =>
      mkStore (inventoryDocs s) (historyDocs s ++ [h]) (configDoc s)
  | SetInventory id it =>
      mkStore (<[id := it]> (inventoryDocs s)) (historyDocs s) (configDoc s)
  | MergeForecast id d =>
      mkStore
        (<[id := withForecast (Some d) (default (blankItem id) (inventoryDocs s !! id))]>
           (inventoryDocs s))
        (historyDocs s) (configDoc s)
  | UpdateSpend v =>
      mkStore (inventoryDocs s) (historyDocs s) (withSpend v (configDoc s))
  end.

(** A committed batch applies its writes in the order they were queued. *)
Definition applyBatch (ws : list Write) (s : Store) : Store :=
  foldl applyWrite s ws.

(** The store after the committed batches of a trace. *)
Definition applyEffect (s : Store) (e : Effect) : Store :=
  match e with
  | Commit ws => applyBatch ws s
  | SetDoc id it =>
      mkStore (<[id := it]> (inventoryDocs s)) (historyDocs s) (configDoc s)
  | _ => s
  end.

Definition runEffects (es : list Effect) (s : Store) : Store :=
  foldl applyEffect s es.

(** What the environment decides during one call of a routine. *)
Record Env := mkEnv {
  ready : bool;                 (* db && userId *)
  now : string;                 (* new Date().toISOString() *)
  randomUUID : nat -> string;   (* crypto.randomUUID() at turn k of a loop *)
  random : nat -> float;        (* Math.random() at turn k of a loop *)
  commitOk : bool;              (* whether batch.commit() resolves *)
}.

(** The key both sides of a case-insensitive name match are reduced to:
    [x?.name?.toLowerCase() || '']. *)
Definition nameKey (n : string) : string := JS.toLowerCase n.

(** ** The cart-building step of [runForecasting] *)

Record CartState := mkCartState {
  newCart : list CartItem.t;
  totalCost : float;
  blocked : list Effect;
}.

Definition cartStart : CartState := mkCartState [] 0 [].

(** [item.vendor && allowlist.includes(item.vendor) ? item.vendor
     : allowlist[0] || 'Unknown'] *)
Definition chooseVendor (cfg : UserConfig.t) (it : Suggestion.t) : string :=
  if JS.truthyStr (Suggestion.vendor it)
     && JS.includes (UserConfig.vendorAllowlist cfg) (Suggestion.vendor it)
  then Suggestion.vendor it
  else JS.orStr (default "" (head (UserConfig.vendorAllowlist cfg))) "Unknown".

(** [item.quantityToBuy * (Math.random() * 5 + 5)] *)
Definition itemCost (it : Suggestion.t) (r : float) : float :=
  (Suggestion.quantityToBuy it * (r * 5 + 5))%float.

(** The test that admits an item. *)
Definition withinCap (cfg : UserConfig.t) (total cost : float) : bool :=
  (UserConfig.currentMonthSpend cfg + total + cost <=? UserConfig.spendCapMonthly cfg)%float.

(** The line pushed for an admitted item. *)
Definition cartLine (cfg : UserConfig.t) (it : Suggestion.t) (r : float) : CartItem.t :=
  CartItem.mk (Suggestion.name it) (Suggestion.quantityToBuy it)
    (JS.roundCents (itemCost it r)) (chooseVendor cfg it) (Suggestion.reason it).

(** One turn of [for (const item of llmSuggestions)]. *)
Definition cartStep (cfg : UserConfig.t) (r : float) (it : Suggestion.t)
    (st : CartState) : CartState :=
  if withinCap cfg (totalCost st) (itemCost it r)
  then mkCartState (newCart st ++ [cartLine cfg it r])
         (totalCost st + itemCost it r)%float (blocked st)
  else mkCartState (newCart st) (totalCost st)
         (blocked st ++ [LogAudit "Forecasting Blocked" [Suggestion.name it; "Spend Cap Exceeded"]]).

(** The loop from its [i]-th turn on; turn [k] draws [rnd k]. *)
Fixpoint cartLoop (cfg : UserConfig.t) (rnd : nat -> float) (i : nat)
    (items : list Suggestion.t) (st : CartState) : CartState :=
  match items with
  | [] => st
  | it :: rest => cartLoop cfg rnd (S i) rest (cartStep cfg (rnd i) it st)
  end.

Definition buildCart (cfg : UserConfig.t) (rnd : nat -> float)
    (suggestions : list Suggestion.t) : CartState :=
  cartLoop cfg rnd 0 suggestions cartStart.

(** ** [runForecasting] *)

(** What [callPredictiveEngine] returned, read at the type of its response
    schema. *)
Record LlmResult := mkLlmResult {
  suggestedCart : list Suggestion.t;
  inventoryForecasts : list Forecast.t;
}.

Definition emptyLlmResult : LlmResult := mkLlmResult [] [].

(** [inventory.filter(item => item && item.name)] *)
Definition safeInventory (inventory : list InventoryItem.t) : list InventoryItem.t :=
  filter (λ it, JS.truthyStr (InventoryItem.name it)) inventory.

(** [new Map(safe.map(item => [item.name.toLowerCase(), item]))]: the
    entries are set in order, so a later item replaces an earlier one under
    the same key. *)
Definition inventoryMap (safe : list InventoryItem.t) : gmap string InventoryItem.t :=
  foldl (λ m it, <[nameKey (InventoryItem.name it) := it]> m) ∅ safe.

(** One turn of [for (const forecast of inventoryForecasts)]. *)
Definition forecastWrite (m : gmap string InventoryItem.t) (f : Forecast.t) : list Write :=
  match m !! nameKey (Forecast.name f) with
  | Some existingItem =>
      [MergeForecast (InventoryItem.id existingItem) (Forecast.predictedRunOutDate f)]
  | None => []
  end.

(** The batch of the forecast-merge step. *)
Definition forecastBatch (inventory : list InventoryItem.t)
    (forecasts : list Forecast.t) : list Write :=
  let m := inventoryMap (safeInventory inventory) in
  concat (map (forecastWrite m) forecasts).

Definition runForecasting (env : Env) (inventory : list InventoryItem.t)
    (userConfig : UserConfig.t) (llmResult : LlmResult) : list Effect :=
  if negb (ready env) then []
  else match inventory with
  | [] => []
  | _ =>
      let batch := forecastBatch inventory (inventoryForecasts llmResult) in
      let st := buildCart userConfig (random env) (suggestedCart llmResult) in
      (if commitOk env
       then [Commit batch; LogAudit "Forecast Update" []]
       else [CommitFailed batch; ConsoleError "Batch update error for forecasts:"])
      ++ blocked st
      ++ [SetSuggestedCart (newCart st); LogAudit "Cart Built" []]
  end.

(** ** [processUpdates] *)

(** [inventory.find(i => (i?.name?.toLowerCase() || '') ===
    (n?.toLowerCase() || ''))] *)
Definition findByName (inventory : list InventoryItem.t) (n : string)
    : option InventoryItem.t :=
  List.find (λ i, String.eqb (nameKey (InventoryItem.name i)) (nameKey n)) inventory.

(** [{ ...existingItem, quantity: (existingItem.quantity || 0) + q,
       lastUsed: now, predictedRunOutDate: null }] *)
Definition restocked (existingItem : InventoryItem.t) (q : float) (now : string)
    : InventoryItem.t :=
  InventoryItem.mk (InventoryItem.id existingItem) (InventoryItem.name existingItem)
    (JS.orNum (InventoryItem.quantity existingItem) 0 + q)%float
    (InventoryItem.unit existingItem) (InventoryItem.restockLevel existingItem)
    (InventoryItem.dailyUse existingItem) now None.

(** [parseFloat(u.quantity) || 1] and [parseFloat(u.cost) || 0] *)
Definition purchasedQuantity (u : Update.t) : float :=
  JS.orNum (JS.parseFloat (Update.quantity u)) 1.

Definition purchasedCost (u : Update.t) : float :=
  JS.orNum (JS.parseFloat (Update.cost u)) 0.

Definition historyOfUpdate (env : Env) (u : Update.t) : HistoryEntry.t :=
  HistoryEntry.mk (Update.name u) (purchasedQuantity u) (Update.vendor u)
    (purchasedCost u) (now env) (JS.orStr (Update.method u) "Agent Input").

(** The item created for an entry that matches nothing. *)
Definition newItem (env : Env) (newId : string) (u : Update.t) : InventoryItem.t :=
  let quantity := purchasedQuantity u in
  InventoryItem.mk newId (Update.name u) quantity
    (if (1 <? quantity)%float then "units" else "unit")
    (quantity * 2)%float (quantity / 30)%float (now env) None.

(** One turn of [for (const u of updates)]; the [k]-th turn draws the
    [k]-th identifier. *)
Definition updateWrites (env : Env) (inventory : list InventoryItem.t)
    (k : nat) (u : Update.t) : list Write :=
  [ SetHistory (historyOfUpdate env u);
    match findByName inventory (Update.name u) with
    | Some existingItem =>
        SetInventory (InventoryItem.id existingItem)
          (restocked existingItem (purchasedQuantity u) (now env))
    | None =>
        SetInventory (randomUUID env k) (newItem env (randomUUID env k) u)
    end ].

Definition updatesBatch (env : Env) (inventory : list InventoryItem.t)
    (updates : list Update.t) : list Write :=
  concat (imap (updateWrites env inventory) updates).

Definition processUpdates (env : Env) (inventory : list InventoryItem.t)
    (updates : list Update.t) : list Effect :=
  if negb (ready env) then []
  else match updates with
  | [] => []
  | _ =>
      let batch := updatesBatch env inventory updates in
      if commitOk env
      then [Commit batch; LogAudit "Input Processed" (map Update.name updates); RunForecasting]
      else [CommitFailed batch; ConsoleError "Batch commit error:"]
  end.

(** ** [handleCheckout] *)

(** [suggestedCart.reduce((sum, item) => sum + item.cost, 0)] *)
Definition cartTotal (cart : list CartItem.t) : float :=
  foldl (λ sum it, (sum + CartItem.cost it)%float) 0%float cart.

Definition historyOfLine (env : Env) (line : CartItem.t) : HistoryEntry.t :=
  HistoryEntry.mk (CartItem.name line) (CartItem.quantity line) (CartItem.vendor line)
    (CartItem.cost line) (now env) "Agent Auto".

(** One turn of [for (const item of itemsToPurchase)]. *)
Definition checkoutWrites (env : Env) (inventory : list InventoryItem.t)
    (line : CartItem.t) : list Write :=
  SetHistory (historyOfLine env line) ::
  match findByName inventory (CartItem.name line) with
  | Some existingItem =>
      [SetInventory (InventoryItem.id existingItem)
         (restocked existingItem (CartItem.quantity line) (now env))]
  | None => []
  end.

Definition checkoutBatch (env : Env) (inventory : list InventoryItem.t)
    (userConfig : UserConfig.t) (cart : list CartItem.t) : list Write :=
  concat (map (checkoutWrites env inventory) cart)
  ++ [UpdateSpend (UserConfig.currentMonthSpend userConfig + cartTotal cart)%float].

Definition handleCheckout (env : Env) (inventory : list InventoryItem.t)
    (userConfig : UserConfig.t) (cart : list CartItem.t) : list Effect :=
  match cart with
  | [] => []
  | _ =>
      let batch := checkoutBatch env inventory userConfig cart in
      LogAudit "Purchase Executed (Auto)" [] ::
      (if commitOk env
       then [ Commit batch;
              LogAudit "Purchase Executed (Simulated)" (map CartItem.name cart);
              SetSuggestedCart [];
              RunForecasting ]
       else [CommitFailed batch; ConsoleError "Checkout batch commit error:"])
  end.

(** ** [updateInventory] *)

Definition sanitizedItem (env : Env) (item : InventoryItem.t) : InventoryItem.t :=
  InventoryItem.mk
    (JS.orStr (InventoryItem.id item) (randomUUID env 0))
    (InventoryItem.name item)
    (JS.orNum (JS.parseFloat (InventoryItem.quantity item)) 0)
    (JS.orStr (InventoryItem.unit item) "units")
    (JS.orNum (JS.parseFloat (InventoryItem.restockLevel item)) 1)
    (JS.orNum (JS.parseFloat (InventoryItem.dailyUse item)) 0.05)
    (JS.orStr (InventoryItem.lastUsed item) (now env))
    None.

(** [commitOk] says here whether [setDoc] resolves. *)
Definition updateInventory (env : Env) (item : InventoryItem.t) : list Effect :=
  if negb (ready env) then []
  else
    let sanitized := sanitizedItem env item in
    if commitOk env then [SetDoc (InventoryItem.id sanitized) sanitized]
    else [ConsoleError "Error updating inventory:"].

(** The [+] and [-] buttons of the inventory table. *)
Definition withQuantity (q : float) (lastUsed : string) (it : InventoryItem.t)
    : InventoryItem.t :=
  InventoryItem.mk (InventoryItem.id it) (InventoryItem.name it) q
    (InventoryItem.unit it) (InventoryItem.restockLevel it)
    (InventoryItem.dailyUse it) lastUsed (InventoryItem.predictedRunOutDate it).

Definition plusButton (env : Env) (item : InventoryItem.t) : list Effect :=
  updateInventory env
    (withQuantity (JS.orNum (InventoryItem.quantity item) 0 + 1)%float (now env) item).

(** [Math.max(0, x)] *)
Definition max0 (x : float) : float :=
  if is_nan x then nan else if (x <=? 0)%float then 0%float else x.

Definition minusButton (env : Env) (item : InventoryItem.t) : list Effect :=
  updateInventory env
    (withQuantity (max0 (JS.orNum (InventoryItem.quantity item) 0 - 1)%float) (now env) item).

(** ** [fetchWithRetry] and its callers *)

Module Fetch.

(** A response of the proxy as the client reads it: its status and, in
    [text], what [(await response.json())?.candidates?.[0]?.content
    ?.parts?.[0]?.text] evaluates to: [None] when [response.json()]
    rejects, the empty string when the body holds no such text. *)
Record Response := mkResponse {
  status : Z;
  text : option string;
}.

(** [response.ok] *)
Definition ok (r : Response) : bool := (200 <=? status r)%Z && (status r <=? 299)%Z.

(** How one call of [fetch] settles. *)
Inductive Outcome :=
| Responds (r : Response)
| Rejects (reason : string).

(** What is thrown inside the wrapper. *)
Inductive Error :=
| HttpError (status : Z)       (* new Error(`HTTP error! status: ...`) *)
| FetchError (reason : string). (* the rejection of fetch itself *)

(** How the wrapper settles; [Returns None] is the [undefined] the
    function returns when its loop never runs. *)
Inductive Result :=
| Returns (r : option Response)
| Throws (e : Error).

Record Run := mkRun {
  result : Result;
  attempts : nat;          (* calls of fetch *)
  delays : list float;     (* the waits between them, in milliseconds *)
}.

(** [Math.pow(2, i) * 1000 + Math.random() * 1000] *)
Definition backoff (i : nat) (r : float) : float :=
  (Z.ldexp 1 (Z.of_nat i) * 1000 + r * 1000)%float.

(** The body of [try]: the response it returns, or what it throws. *)
Definition attempt (o : Outcome) : Response + Error :=
  match o with
  | Responds r =>
      if negb (ok r) then
        if (status r =? 429)%Z || (500 <=? status r)%Z
        then inr (HttpError (status r))
        else inl r
      else inl r
  | Rejects reason => inr (FetchError reason)
  end.

(** The outcomes that end in the [catch] block: a rejected [fetch], and
    a response with status 429 or 500 and above. *)
Definition caught (o : Outcome) : bool :=
  match o with
  | Responds r => (status r =? 429)%Z || (500 <=? status r)%Z
  | Rejects _ => true
  end.

(** [for (let i = ...; i < maxRetries; i++)] from turn [i] on, with
    [turns = maxRetries - i] turns left.  Turn [k] calls [fetch] for the
    [k]-th time and draws [jitter k] if it has to wait. *)
Fixpoint retryLoop (fetch : nat -> Outcome) (jitter : nat -> float)
    (maxRetries i turns : nat) : Run :=
  match turns with
  | O => mkRun (Returns None) 0 []
  | S turns' =>
      match attempt (fetch i) with
      | inl response => mkRun (Returns (Some response)) 1 []
      | inr error =>
          if (i =? maxRetries - 1)%nat then mkRun (Throws error) 1 []
          else
            let rest := retryLoop fetch jitter maxRetries (S i) turns' in
            mkRun (result rest) (S (attempts rest))
              (backoff i (jitter i) :: delays rest)
      end
  end.

Definition fetchWithRetry (fetch : nat -> Outcome) (jitter : nat -> float)
    (maxRetries : nat) : Run :=
  retryLoop fetch jitter maxRetries 0 maxRetries.

(** The [try { ... } catch { console.error(tag, error); return empty }] both
    callers share; [parse] is [JSON.parse] read at the caller's type,
    [None] when it throws. *)
Definition degrade {A} (tag : string) (empty : A) (parse : string -> option A)
    (run : Run) : A * list Effect :=
  match result run with
  | Throws _ => (empty, [ConsoleError tag])
  | Returns None => (empty, [ConsoleError tag])
  | Returns (Some response) =>
      match text response with
      | None => (empty, [ConsoleError tag])
      | Some jsonText =>
          if JS.truthyStr jsonText then
            match parse jsonText with
            | Some v => (v, [])
            | None => (empty, [ConsoleError tag])
            end
          else (empty, [])
      end
  end.

Definition callVisionAPI (parse : string -> option (list Update.t))
    (fetch : nat -> Outcome) (jitter : nat -> float) : list Update.t * list Effect :=
  degrade "LLM Vision Error:" [] parse (fetchWithRetry fetch jitter 5).

Definition callPredictiveEngine (parse : string -> option LlmResult)
    (fetch : nat -> Outcome) (jitter : nat -> float) : LlmResult * list Effect :=
  degrade "LLM Prediction Error:" emptyLlmResult parse (fetchWithRetry fetch jitter 5).

End Fetch.

(** ** The proxy endpoint [handler] *)

Module Proxy.

Record Request := mkRequest {
  method : string;
  model : string;
  payload : string;     (* req.body.payload, as JSON text *)
}.

Inductive Body :=
| Message (m : string)  (* { message: m } *)
| Data (json : string). (* the provider's body, relayed *)

Record Reply := mkReply {
  status : Z;
  body : Body;
}.

(** A call of [fetch] to the provider. *)
Record Call := mkCall {
  url : string;
  sent : string;
}.

(** How the provider call settles: a status with a body ([None] when
    reading it as JSON rejects), or a rejected [fetch]. *)
Inductive Upstream :=
| Answers (status : Z) (data : option string)
| Fails.

Definition apiUrl (key : string) (model : string) : string :=
  "https://generativelanguage.googleapis.com/v1beta/models/" ++ model
  ++ ":generateContent?key=" ++ key.

(** [GEMINI_API_KEY] is the environment's value, empty when unset. *)
Definition handler (GEMINI_API_KEY : string) (provider : Call -> Upstream)
    (req : Request) : Reply * list Call :=
  if negb (String.eqb (method req) "POST")
  then (mkReply 405 (Message "Method Not Allowed"), [])
  else if negb (JS.truthyStr GEMINI_API_KEY)
  then (mkReply 500 (Message "Server error: Key missing."), [])
  else
    let call := mkCall (apiUrl GEMINI_API_KEY (model req)) (payload req) in
    match provider call with
    | Answers s (Some data) => (mkReply s (Data data), [call])
    | Answers _ None => (mkReply 500 (Message "Internal Server Error."), [call])
    | Fails => (mkReply 500 (Message "Internal Server Error."), [call])
    end.

End Proxy.

(** ** Which document a write addresses *)

(** [w] writes the inventory document [id]. *)
Definition targets (id : string) (w : Write) : Prop :=
  match w with
  | SetInventory id' _ | MergeForecast id' _ => id' = id
  | SetHistory _ | UpdateSpend _ => False
  end.

(** The document the [k]-th turn of [processUpdates] writes for [u]. *)
Definition updateTarget (env : Env) (inventory : list InventoryItem.t)
    (k : nat) (u : Update.t) : string :=
  match findByName inventory (Update.name u) with
  | Some existingItem => InventoryItem.id existingItem
  | None => randomUUID env k
  end.

(** ** Deleting an item and saving the config *)

(** What [deleteInventoryItem] and [updateConfig] do besides the effects
    above. *)
Inductive Action :=
| Did (e : Effect)
| DeleteDoc (id : string)        (* deleteDoc(inventory/id) resolved *)
| SetConfig (c : UserConfig.t).  (* setDoc(config/userConfig, c, { merge: true }) resolved *)

Definition applyAction (s : Store) (a : Action) : Store :=
  match a with
  | Did e => applyEffect s e
  | DeleteDoc id => mkStore (delete id (inventoryDocs s)) (historyDocs s) (configDoc s)
  | SetConfig c => mkStore (inventoryDocs s) (historyDocs s) c
  end.

Definition runActions (acts : list Action) (s : Store) : Store :=
  foldl applyAction s acts.

(** [commitOk] says here whether [deleteDoc] resolves. *)
Definition deleteInventoryItem (env : Env) (itemId : string) : list Action :=
  if negb (ready env) then []
  else if commitOk env
  then [DeleteDoc itemId; Did (LogAudit "Inventory Deletion" [itemId])]
  else [Did (ConsoleError "Error deleting inventory item:")].

(** [commitOk] says here whether [setDoc] resolves.  The config the
    settings view passes holds every field ([{ ...userConfig, ... }]), so
    the merge replaces them all. *)
Definition updateConfig (env : Env) (newConfig : UserConfig.t) : list Action :=
  if negb (ready env) then []
  else if commitOk env
  then [SetConfig newConfig; Did (LogAudit "Config Update" [])]
  else [Did (ConsoleError "Error updating config:")].

(** The vendors the settings view offers. *)
Definition offeredVendors : list string := ["Amazon"; "Walmart"; "Local Grocer"].

(** The list a checkbox of the settings view computes:
    [list.includes(vendor) ? list.filter(v => v !== vendor) : [...list, vendor]] *)
Definition toggleVendor (allowlist : list string) (vendor : string) : list string :=
  if JS.includes allowlist vendor
  then List.filter (λ v, negb (String.eqb v vendor)) allowlist
  else allowlist ++ [vendor].

(** [onChange] of the checkbox of [vendor]. *)
Definition onToggleVendor (env : Env) (userConfig : UserConfig.t) (vendor : string)
    : list Action :=
  updateConfig env
    (UserConfig.mk (UserConfig.spendCapMonthly userConfig)
       (UserConfig.currentMonthSpend userConfig)
       (toggleVendor (UserConfig.vendorAllowlist userConfig) vendor)).

(** The spend-cap field of the settings view; [value] is what the field
    holds as a number, [NaN] when it is empty:
    [updateConfig({ ...userConfig, spendCapMonthly: parseFloat(e.target.value) || 0 })] *)
Definition onSpendCap (env : Env) (userConfig : UserConfig.t) (value : float)
    : list Action :=
  updateConfig env
    (UserConfig.mk (JS.orNum (JS.parseFloat value) 0)
       (UserConfig.currentMonthSpend userConfig)
       (UserConfig.vendorAllowlist userConfig)).

(** ** The delete confirmation of a row *)

(** The clicks a row of the inventory table takes.  A row shows the trash
    button unless [pendingDeleteId] is its id, and then it shows
    [Confirm Delete?] and [Cancel] instead. *)
Inductive Click :=
| ClickTrash (id : string)
| ClickConfirm (id : string)
| ClickCancel (id : string)
| ClickPlus (item : InventoryItem.t)
| ClickMinus (item : InventoryItem.t).

(** [pendingDeleteId] after a call of [updateInventory]: cleared when the
    write went through. *)
Definition pendingAfterUpdate (env : Env) (pending : option string) : option string :=
  if ready env && commitOk env then None else pending.

(** One click under [pendingDeleteId = pending]: [None] when the rendered
    row has no such button, else the new [pendingDeleteId] and what the
    handler did.  [deleteInventoryItem] clears [pendingDeleteId] in its
    [finally], which it does not reach when db or userId is missing. *)
Definition click (env : Env) (pending : option string) (c : Click)
    : option (option string * list Action) :=
  match c with
  | ClickTrash id =>
      if bool_decide (pending = Some id) then None else Some (Some id, [])
  | ClickCancel id =>
      if bool_decide (pending = Some id) then Some (None, []) else None
  | ClickConfirm id =>
      if bool_decide (pending = Some id)
      then Some (if ready env then None else pending, deleteInventoryItem env id)
      else None
  | ClickPlus item =>
      Some (pendingAfterUpdate env pending, Did <$> plusButton env item)
  | ClickMinus item =>
      Some (pendingAfterUpdate env pending, Did <$> minusButton env item)
  end.

(** A sequence of clicks, each with the environment it meets. *)
Fixpoint clicks (pending : option string) (cs : list (Env * Click))
    : option (option string * list Action) :=
  match cs with
  | [] => Some (pending, [])
  | (env, c) :: rest =>
      match click env pending c with
      | None => None
      | Some (pending', acts) =>
          match clicks pending' rest with
          | None => None
          | Some (final, acts') => Some (final, acts ++ acts')
          end
      end
  end.

(** ** [addItemManually] *)

(** The manual form.  [quantity] and [cost] are the numbers the two number
    inputs hold: for the text of a number input, [isNaN], the comparisons
    and [parseFloat] all read the same number, the empty text apart, which
    compares as 0 and is refused. *)
Module ManualInput.
Record t := mk {
  name : string;
  quantity : float;
  cost : float;
  vendor : string;
}.
End ManualInput.








(** ** [imageToBase64] and [handleImageUpload] *)

(** The text after the first comma of [s], if it has one. *)
Fixpoint afterComma (s : string) : option string :=
  match s with
  | EmptyString => None
  | String c r => if Ascii.eqb c "," then Some r else afterComma r
  end.

(** The text before the first comma of [s]. *)
Fixpoint untilComma (s : string) : string :=
  match s with
  | EmptyString => EmptyString
  | String c r => if Ascii.eqb c "," then EmptyString else String c (untilComma r)
  end.

(** [s.split(',')[1]]: [None] is [undefined]. *)
Definition secondField (s : string) : option string :=
  untilComma <$> afterComma s.

(** How the promise of [imageToBase64] settles, given how the reader ends:
    with [reader.result], or with an error. *)
Inductive Read :=
| Loaded (result : string)
| ReadError.

Definition imageToBase64 (r : Read) : option (option string) :=
  match r with
  | Loaded result => Some (secondField result)
  | ReadError => None
  end.

Module File.
Record t := mk {
  type : string;
  read : Read;
}.
End File.



(** ** The client behind the proxy *)

(** What a caller of [fetchWithRetry] sends to ['/api/gemini']. *)
Definition clientRequest (model payload : string) : Proxy.Request :=
  Proxy.mkRequest "POST" model payload.

(** The response the client reads from a reply of the proxy;
    [candidateText] extracts [candidates[0].content.parts[0].text] from the
    provider's body, and a [{ message }] body has none. *)
Definition readReply (candidateText : string -> string) (r : Proxy.Reply)
    : Fetch.Response :=
  Fetch.mkResponse (Proxy.status r)
    (Some match Proxy.body r with
          | Proxy.Message _ => ""
          | Proxy.Data json => candidateText json
          end).

(** The [fetch] of a client whose every call reaches the proxy; the
    provider's answer to the [i]-th call is [provider i]. *)
Definition throughProxy (candidateText : string -> string) (key : string)
    (provider : nat -> Proxy.Call -> Proxy.Upstream) (req : Proxy.Request)
    (i : nat) : Fetch.Outcome :=
  Fetch.Responds (readReply candidateText (fst (Proxy.handler key (provider i) req))).

(** The provider calls the proxy made during the first [n] calls of the
    client. *)
Definition providerCalls (key : string)
    (provider : nat -> Proxy.Call -> Proxy.Upstream) (req : Proxy.Request)
    (n : nat) : list Proxy.Call :=
  concat (map (λ i, snd (Proxy.handler key (provider i) req)) (seq 0 n)).

(** ** [initializeUserData] *)

(** The documents of a user, the config among them or not yet. *)
Record Account := mkAccount {
  configOf : option UserConfig.t;
  inventoryOf : gmap string InventoryItem.t;
  historyOf : list HistoryEntry.t;
}.

(** [getOk] says whether [getDoc] resolves and [commitOk] whether the batch
    commits.  [initialInventory] and [initialHistory] are the two lists the
    module computes when it loads. *)
Definition initializeUserData (getOk commitOk : bool)
    (initialInventory : list InventoryItem.t) (initialHistory : list HistoryEntry.t)
    (a : Account) : Account :=
  if negb getOk then a
  else match configOf a with
  | Some _ => a
  | None =>
      if commitOk
      then mkAccount (Some initialConfig)
             (foldl (λ m it, <[InventoryItem.id it := it]> m) (inventoryOf a)
                initialInventory)
             (historyOf a ++ initialHistory)
      else a
  end.

(** ** The condition of the automatic forecast *)

(** [!item.predictedRunOutDate] *)
Definition lacksForecast (it : InventoryItem.t) : bool :=
  match InventoryItem.predictedRunOutDate it with
  | Some d => negb (JS.truthyStr d)
  | None => true
  end.

(** [inventory.some(item => !item.predictedRunOutDate)] *)
Definition needsForecast (inventory : list InventoryItem.t) : bool :=
  existsb lacksForecast inventory.

(** The test of the effect that runs the forecast by itself. *)
Definition autoForecast (isAuthReady : bool) (inventory : list InventoryItem.t)
    (purchaseHistory : list HistoryEntry.t) (cart : list CartItem.t) : bool :=
  isAuthReady
  && (0 <? length inventory)%nat
  && (0 <? length purchaseHistory)%nat
  && ((length cart =? 0)%nat || needsForecast inventory).

(** The inventory the snapshot listener hands over:
    [snapshot.docs.map(doc => ({ ...doc.data(), id: doc.id }))]. *)
Definition withId (id : string) (it : InventoryItem.t) : InventoryItem.t :=
  InventoryItem.mk id (InventoryItem.name it) (InventoryItem.quantity it)
    (InventoryItem.unit it) (InventoryItem.restockLevel it)
    (InventoryItem.dailyUse it) (InventoryItem.lastUsed it)
    (InventoryItem.predictedRunOutDate it).

Definition snapshotInventory (docs : gmap string InventoryItem.t)
    : list InventoryItem.t :=
  (λ kv, withId kv.1 kv.2) <$> map_to_list docs.

(** Which of the written documents a write clears the forecast of. *)
Definition clearsForecast (w : Write) : Prop :=
  match w with
  | SetInventory _ it => InventoryItem.predictedRunOutDate it = None
  | MergeForecast _ _ => False
  | SetHistory _ | UpdateSpend _ => True
  end.



(** ** Data of the examples *)

(** The rows of [initialInventory] as the component holds them at some
    moment, Milk with a forecast from an earlier run. *)
Definition coffeeBeans : InventoryItem.t :=
  InventoryItem.mk "1" "Coffee Beans" 0.5 "bags" 1 0.1 "2025-05-30T09:30:00.000Z" None.

Definition toiletPaper : InventoryItem.t :=
  InventoryItem.mk "2" "Toilet Paper" 4 "rolls" 8 0.5 "2025-05-26T09:30:00.000Z" None.

Definition milk : InventoryItem.t :=
  InventoryItem.mk "3" "Milk" 1 "gallon" 2 0.2 "2025-06-02T09:30:00.000Z" (Some "2025-06-05").

Definition dishSoap : InventoryItem.t :=
  InventoryItem.mk "4" "Dish Soap" 1 "bottle" 1 0.05 "2025-05-03T09:30:00.000Z" None.

Definition stock : list InventoryItem.t := [coffeeBeans; toiletPaper; milk; dishSoap].

(** The store holding those rows under their ids and the seeded config. *)
Definition stockStore : Store :=
  mkStore (list_to_map ((λ it, (InventoryItem.id it, it)) <$> stock)) [] initialConfig.

(** An environment in which the store accepts every write and every draw
    of [Math.random] is [r]. *)
Definition drawing (r : float) : Env :=
  mkEnv true "2025-06-02T10:00:00.000Z" (λ _, "0b6f7a52-7c1e-4c58-9d55-3a1f0e8d2c41")
    (λ _, r) true.

(** The suggestion of the specification's example: no vendor is given. *)
Definition milkSuggestion : Suggestion.t := Suggestion.mk "Milk" 2 "Low stock" "".

(** Three suggestions of twenty units each. *)
Definition bulkSuggestions : list Suggestion.t :=
  [ Suggestion.mk "Milk" 20 "Low stock" "Walmart";
    Suggestion.mk "Coffee Beans" 20 "Low stock" "Amazon";
    Suggestion.mk "Dish Soap" 20 "Low stock" "Amazon" ].

(** A receipt that lists Milk on two lines. *)
Definition milkTwice : list Update.t :=
  [ Update.mk "Milk" 2 3.49 "Walmart" "Vision OCR";
    Update.mk "MILK" 3 3.49 "Walmart" "Vision OCR" ].

(** An entry for an item the inventory does not have. *)
Definition eggs : Update.t := Update.mk "Eggs" 12 0.25 "Walmart" "Manual Input".

(** A [fetch] that is rejected once (the network is down) and then
    answers 200. *)
Definition flaky (i : nat) : Fetch.Outcome :=
  match i with
  | O => Fetch.Rejects "Failed to fetch"
  | S _ => Fetch.Responds (Fetch.mkResponse 200 (Some ""))
  end.

(** * Properties *)

(** [x] is the element at position [n] of a list given by its elements. *)
Tactic Notation "elem_at" integer(n) :=
  do n apply list_elem_of_further; apply list_elem_of_here.

(** ** The cart-building loop *)

Section CartBuild.

Variable cfg : UserConfig.t.
Variable rnd : nat -> float.

Lemma cartLoop_app i l1 l2 st :
  cartLoop cfg rnd i (l1 ++ l2) st
  = cartLoop cfg rnd (i + length l1) l2 (cartLoop cfg rnd i l1 st).
Proof.
  revert i st. induction l1 as [|x l1 IH]; intros i st; simpl.
  - by rewrite Nat.add_0_r.
  - rewrite IH. by replace (S i + length l1) with (i + S (length l1)) by lia.
Qed.

(** The loop is a left fold: the state after one more suggestion is one
    step from the state before it. *)
Lemma buildCart_snoc l it :
  buildCart cfg rnd (l ++ [it]) = cartStep cfg (rnd (length l)) it (buildCart cfg rnd l).
Proof. unfold buildCart. by rewrite cartLoop_app. Qed.

Lemma buildCart_take_S suggestions k it :
  suggestions !! k = Some it →
  buildCart cfg rnd (take (S k) suggestions)
  = cartStep cfg (rnd k) it (buildCart cfg rnd (take k suggestions)).
Proof.
  intros Hk. rewrite (take_S_r _ _ _ Hk), buildCart_snoc.
  rewrite length_take_le; [done|]. apply lookup_lt_Some in Hk. lia.
Qed.

(** A step either leaves the cart and the running total alone, or passed
    the test and pushed its line. *)
Lemma cartStep_cases r it st :
  (withinCap cfg (totalCost st) (itemCost it r) = false
   ∧ newCart (cartStep cfg r it st) = newCart st
   ∧ totalCost (cartStep cfg r it st) = totalCost st)
  ∨ (withinCap cfg (totalCost st) (itemCost it r) = true
     ∧ newCart (cartStep cfg r it st) = newCart st ++ [cartLine cfg it r]
     ∧ totalCost (cartStep cfg r it st) = (totalCost st + itemCost it r)%float).
Proof. unfold cartStep. destruct (withinCap _ _ _); simpl; auto. Qed.

Lemma cartStep_sublist r it st :
  newCart (cartStep cfg r it st) `sublist_of` newCart st ++ [cartLine cfg it r].
Proof.
  destruct (cartStep_cases r it st) as [(_ & -> & _)|(_ & -> & _)]; [|done].
  by apply sublist_inserts_r.
Qed.

End CartBuild.

(** Every line of the built cart was pushed for a suggestion that passed
    the admission test when its turn came. *)
Lemma buildCart_admission (cfg : UserConfig.t) (rnd : nat -> float)
    (suggestions : list Suggestion.t) (line : CartItem.t) :
  line ∈ newCart (buildCart cfg rnd suggestions) →
  ∃ k it,
    suggestions !! k = Some it
    ∧ line = cartLine cfg it (rnd k)
    ∧ (UserConfig.currentMonthSpend cfg
       + totalCost (buildCart cfg rnd (take k suggestions))
       + itemCost it (rnd k)
       <=? UserConfig.spendCapMonthly cfg)%float = true.
Proof.
  induction suggestions as [|x l IH] using rev_ind.
  - unfold buildCart; simpl. intros H. by apply elem_of_nil in H.
  - rewrite buildCart_snoc.
    destruct (cartStep_cases cfg (rnd (length l)) x (buildCart cfg rnd l))
      as [(_ & -> & _)|(Hok & -> & _)]; intros Hin.
    + destruct (IH Hin) as (k & it & Hk & -> & Hle).
      exists k, it. split; [by apply lookup_app_l_Some|]. split; [done|].
      rewrite take_app_le; [done|]. apply lookup_lt_Some in Hk. lia.
    + apply elem_of_app in Hin as [Hin|Hin].
      * destruct (IH Hin) as (k & it & Hk & -> & Hle).
        exists k, it. split; [by apply lookup_app_l_Some|]. split; [done|].
        rewrite take_app_le; [done|]. apply lookup_lt_Some in Hk. lia.
      * apply list_elem_of_singleton in Hin as ->.
        exists (length l), x. split; [by rewrite list_lookup_middle|].
        split; [done|]. by rewrite take_app_length.
Qed.

Lemma includes_elem_of (a : list string) (v : string) :
  JS.includes a v = true ↔ v ∈ a.
Proof.
  unfold JS.includes. rewrite existsb_exists. split.
  - intros (x & Hin & Heq). apply String.eqb_eq in Heq as ->.
    by apply list_elem_of_In.
  - intros Hin. exists v. split; [by apply list_elem_of_In | apply String.eqb_refl].
Qed.

Lemma truthyStr_nonempty (s : string) : JS.truthyStr s = true ↔ s ≠ "".
Proof. destruct s; simpl; split; intros H; congruence. Qed.

Lemma chooseVendor_allowlist (cfg : UserConfig.t) (it : Suggestion.t) :
  "" ∉ UserConfig.vendorAllowlist cfg →
  chooseVendor cfg it
  = if decide (Suggestion.vendor it ∈ UserConfig.vendorAllowlist cfg)
    then Suggestion.vendor it
    else default "Unknown" (head (UserConfig.vendorAllowlist cfg)).
Proof.
  intros Hne. unfold chooseVendor.
  destruct (decide (Suggestion.vendor it ∈ _)) as [Hin|Hout].
  - assert (JS.truthyStr (Suggestion.vendor it) = true) as ->.
    { apply truthyStr_nonempty. intros E. rewrite E in Hin. by apply Hne. }
    by apply includes_elem_of in Hin as ->.
  - assert (JS.includes (UserConfig.vendorAllowlist cfg) (Suggestion.vendor it) = false) as ->.
    { apply not_true_is_false. by rewrite includes_elem_of. }
    rewrite andb_false_r.
    destruct (UserConfig.vendorAllowlist cfg) as [|v rest]; simpl; [done|].
    destruct v; simpl; [|done]. exfalso. apply Hne. by left.
Qed.

Lemma buildCart_sublist (cfg : UserConfig.t) (rnd : nat -> float)
    (suggestions : list Suggestion.t) :
  newCart (buildCart cfg rnd suggestions)
    `sublist_of` imap (λ k it, cartLine cfg it (rnd k)) suggestions.
Proof.
  induction suggestions as [|x l IH] using rev_ind; [done|].
  rewrite buildCart_snoc, imap_app. simpl. rewrite Nat.add_0_r.
  etrans; [apply cartStep_sublist|]. by apply sublist_app.
Qed.

(** The loop only records audit entries besides the cart. *)
Lemma blocked_audits (cfg : UserConfig.t) (rnd : nat -> float)
    (suggestions : list Suggestion.t) (e : Effect) :
  e ∈ blocked (buildCart cfg rnd suggestions) → ∃ a d, e = LogAudit a d.
Proof.
  induction suggestions as [|x l IH] using rev_ind.
  - unfold buildCart; simpl. intros H. by apply elem_of_nil in H.
  - rewrite buildCart_snoc. unfold cartStep.
    destruct (withinCap _ _ _); simpl; [done|].
    intros [H|H]%elem_of_app; [by apply IH|].
    apply list_elem_of_singleton in H as ->. eauto.
Qed.

(** The cart [runForecasting] hands to [setSuggestedCart] is the one the
    loop built from the model's suggestions under the current config. *)
Lemma runForecasting_cart (env : Env) (inventory : list InventoryItem.t)
    (cfg : UserConfig.t) (llm : LlmResult) (cart : list CartItem.t) :
  SetSuggestedCart cart ∈ runForecasting env inventory cfg llm →
  cart = newCart (buildCart cfg (random env) (suggestedCart llm)).
Proof.
  unfold runForecasting. destruct (ready env); simpl; [|by intros ?%elem_of_nil].
  destruct inventory as [|i0 inv]; [by intros ?%elem_of_nil|].
  intros [H|[H|H]%elem_of_app]%elem_of_app.
  - destruct (commitOk env);
      repeat (apply elem_of_cons in H as [H|H]; [discriminate H|]);
      by apply elem_of_nil in H.
  - apply blocked_audits in H as (a & d & H). discriminate.
  - apply elem_of_cons in H as [[= ->]|H]; [done|].
    apply list_elem_of_singleton in H. discriminate H.
Qed.

Lemma runForecasting_sets_cart (env : Env) (inventory : list InventoryItem.t)
    (cfg : UserConfig.t) (llm : LlmResult) :
  ready env = true → inventory ≠ [] →
  SetSuggestedCart (newCart (buildCart cfg (random env) (suggestedCart llm)))
    ∈ runForecasting env inventory cfg llm.
Proof.
  intros Hr Hi. unfold runForecasting. rewrite Hr. simpl.
  destruct inventory; [done|].
  apply elem_of_app. right. apply elem_of_app. right. apply list_elem_of_here.
Qed.

(** ** The forecast-merge step *)








Lemma withForecast_twice (d d' : option string) (it : InventoryItem.t) :
  withForecast d (withForecast d' it) = withForecast d it.
Proof. done. Qed.






(** ** Name matching *)


Lemma findByName_None (inventory : list InventoryItem.t) (n : string) :
  findByName inventory n = None ↔
  ∀ e, e ∈ inventory → nameKey (InventoryItem.name e) ≠ nameKey n.
Proof.
  unfold findByName. split.
  - intros Hnone e Hin Heq. apply list_elem_of_In in Hin.
    pose proof (find_none _ _ Hnone e Hin) as Hf. simpl in Hf.
    by rewrite Heq, String.eqb_refl in Hf.
  - intros Hno. destruct (List.find _ _) as [e|] eqn:Hf; [|done].
    apply find_some in Hf as [Hin Heq]. apply String.eqb_eq in Heq.
    by destruct (Hno e (proj2 (list_elem_of_In _ _) Hin)).
Qed.

(** Some item matches exactly when [find] returns one. *)
Lemma findByName_is_Some (inventory : list InventoryItem.t) (n : string) :
  (∃ e, e ∈ inventory ∧ nameKey (InventoryItem.name e) = nameKey n) →
  ∃ e, findByName inventory n = Some e.
Proof.
  intros (e & Hin & Heq). destruct (findByName inventory n) as [e'|] eqn:Hf; [by eauto|].
  by destruct (proj1 (findByName_None _ _) Hf e Hin).
Qed.

(** ** [processUpdates] *)



Lemma processUpdates_commits (env : Env) (inventory : list InventoryItem.t)
    (updates : list Update.t) :
  ready env = true → commitOk env = true → updates ≠ [] →
  processUpdates env inventory updates
  = [ Commit (updatesBatch env inventory updates);
      LogAudit "Input Processed" (map Update.name updates);
      RunForecasting ].
Proof.
  intros Hr Hc Hu. unfold processUpdates. rewrite Hr, Hc. simpl.
  by destruct updates.
Qed.


(** One entry for an item in stock, as the manual form sends it: the store
    ends with the purchase added to the item, its forecast cleared and the
    purchase logged. *)
Lemma processUpdates_single_restock (env : Env) (inventory : list InventoryItem.t)
    (u : Update.t) (e : InventoryItem.t) (s : Store) :
  ready env = true → commitOk env = true →
  findByName inventory (Update.name u) = Some e →
  let s' := runEffects (processUpdates env inventory [u]) s in
  inventoryDocs s' !! InventoryItem.id e
    = Some (restocked e (purchasedQuantity u) (now env))
  ∧ historyDocs s' = historyDocs s ++ [historyOfUpdate env u].
Proof.
  intros Hr Hc Hf. rewrite processUpdates_commits by done.
  unfold updatesBatch, updateWrites. simpl. rewrite Hf.
  simpl. by rewrite lookup_insert_eq.
Qed.

(** ** [handleCheckout] *)

Lemma handleCheckout_commits (env : Env) (inventory : list InventoryItem.t)
    (cfg : UserConfig.t) (cart : list CartItem.t) :
  commitOk env = true → cart ≠ [] →
  handleCheckout env inventory cfg cart
  = [ LogAudit "Purchase Executed (Auto)" [];
      Commit (checkoutBatch env inventory cfg cart);
      LogAudit "Purchase Executed (Simulated)" (map CartItem.name cart);
      SetSuggestedCart [];
      RunForecasting ].
Proof. intros Hc Hne. unfold handleCheckout. rewrite Hc. by destruct cart. Qed.

Lemma applyBatch_app (ws1 ws2 : list Write) (s : Store) :
  applyBatch (ws1 ++ ws2) s = applyBatch ws2 (applyBatch ws1 s).
Proof. unfold applyBatch. apply foldl_app. Qed.

(** Writes of the checkout loop leave the config alone and append their
    history records in order. *)
Lemma checkoutWrites_store (env : Env) (inventory : list InventoryItem.t)
    (cart : list CartItem.t) (s : Store) :
  let s' := applyBatch (concat (map (checkoutWrites env inventory) cart)) s in
  configDoc s' = configDoc s
  ∧ historyDocs s' = historyDocs s ++ map (historyOfLine env) cart.
Proof.
  revert s. induction cart as [|line cart IH]; intros s; simpl.
  - by rewrite app_nil_r.
  - rewrite applyBatch_app.
    destruct (IH (applyBatch (checkoutWrites env inventory line) s)) as [Hc Hh].
    simpl in Hc, Hh. rewrite Hc, Hh. unfold checkoutWrites.
    destruct (findByName _ _); simpl; by rewrite <- app_assoc.
Qed.

(** The checkout never reads the spend cap: it commits the same batch and
    the same spend under any cap. *)
Lemma handleCheckout_ignores_cap (env : Env) (inventory : list InventoryItem.t)
    (cap cap' spend : float) (allow : list string) (cart : list CartItem.t) :
  handleCheckout env inventory (UserConfig.mk cap spend allow) cart
  = handleCheckout env inventory (UserConfig.mk cap' spend allow) cart.
Proof. done. Qed.

(** The spend a committed checkout leaves in the config: the spend the
    component held plus the total of the lines; every line is logged. *)
Lemma handleCheckout_spend (env : Env) (inventory : list InventoryItem.t)
    (cfg : UserConfig.t) (cart : list CartItem.t) (s : Store) :
  commitOk env = true → cart ≠ [] →
  let s' := runEffects (handleCheckout env inventory cfg cart) s in
  UserConfig.currentMonthSpend (configDoc s')
    = (UserConfig.currentMonthSpend cfg + cartTotal cart)%float
  ∧ historyDocs s' = historyDocs s ++ map (historyOfLine env) cart.
Proof.
  intros Hc Hne. rewrite handleCheckout_commits by done.
  unfold runEffects, checkoutBatch. simpl. rewrite applyBatch_app.
  destruct (checkoutWrites_store env inventory cart s) as [_ Hh]. simpl in Hh.
  unfold applyBatch at 1. simpl. by rewrite Hh.
Qed.

(** ** Batches: the last write to a document decides it *)







(** ** [fetchWithRetry] *)

Section Retry.

Import Fetch.

Variable fetch : nat -> Outcome.
Variable jitter : nat -> float.

(** The [try] block throws exactly on the outcomes [caught] lists. *)
Lemma attempt_caught (o : Outcome) :
  caught o = true ↔ ∃ e, attempt o = inr e.
Proof.
  destruct o as [r|reason]; simpl; [|split; eauto].
  unfold ok.
  destruct (Z.eqb_spec (status r) 429) as [E|H429]; simpl.
  - rewrite E. simpl. split; eauto.
  - destruct (Z.leb_spec 500 (status r)) as [H500|H500]; simpl.
    + destruct (Z.leb_spec (status r) 299); [lia|]. rewrite andb_false_r. simpl.
      split; eauto.
    + destruct (negb _); split; try done; by intros [? ?].
Qed.

Lemma attempt_returns (o : Outcome) :
  caught o = false ↔ ∃ r, o = Responds r ∧ attempt o = inl r.
Proof.
  split.
  - intros Hc. destruct (attempt o) as [r|e] eqn:Ha.
    + destruct o as [r'|]; [|done]. exists r'. split; [done|].
      simpl in Ha, Hc. rewrite Hc in Ha. destruct (negb _); by simplify_eq.
    + assert (caught o = true) by (apply attempt_caught; eauto). congruence.
  - intros (r & -> & Ha). apply not_true_is_false. intros [e He]%attempt_caught.
    congruence.
Qed.

(** The loop from turn [i] with [turns] turns left: it calls [fetch] at
    turns [i .. i + n], every call but the last one was caught, it waited
    [backoff] after each caught call, and the last call either returned
    its response or, on the last turn, threw. *)
Lemma retryLoop_run (maxRetries i turns : nat) :
  i + S turns = maxRetries →
  let run := retryLoop fetch jitter maxRetries i (S turns) in
  ∃ n : nat, (n ≤ turns)%nat
    ∧ attempts run = S n
    ∧ (∀ j : nat, (j < n)%nat → caught (fetch (i + j)) = true)
    ∧ delays run = map (λ j, backoff j (jitter j)) (seq i n)
    ∧ result run
      = match attempt (fetch (i + n)) with
        | inl r => Returns (Some r)
        | inr e => Throws e
        end
    ∧ ((n < turns)%nat → caught (fetch (i + n)) = false).
Proof.
  revert i. induction turns as [|t IH]; intros i Hi; simpl.
  - exists 0. rewrite Nat.add_0_r. split; [lia|].
    destruct (attempt (fetch i)) as [r|e] eqn:Ha; simpl.
    + repeat split; try done; lia.
    + replace (i =? maxRetries - 1)%nat with true by (symmetry; apply Nat.eqb_eq; lia).
      simpl. repeat split; try done; lia.
  - destruct (attempt (fetch i)) as [r|e] eqn:Ha.
    + exists 0. rewrite Nat.add_0_r, Ha. simpl.
      split; [lia|]. split; [done|]. split; [lia|]. split; [done|]. split; [done|].
      intros _. apply not_true_is_false. intros [e He]%attempt_caught. congruence.
    + replace (i =? maxRetries - 1)%nat with false by (symmetry; apply Nat.eqb_neq; lia).
      destruct (IH (S i)) as (n & Hn & Hat & Hc & Hd & Hr & Hlast); [lia|].
      exists (S n). simpl in Hat, Hd, Hr. cbn [result attempts delays].
      rewrite Hat, Hd, Hr.
      replace (i + S n) with (S i + n) by lia.
      split; [lia|]. split; [done|]. split; [|split; [done|split; [done|]]].
      * intros j Hj. destruct j as [|j].
        -- rewrite Nat.add_0_r. apply attempt_caught. eauto.
        -- replace (i + S j) with (S i + j) by lia. apply Hc. lia.
      * intros Hlt. apply Hlast. lia.
Qed.

End Retry.

(** ** The proxy *)

Lemma handler_not_post (key : string) (provider : Proxy.Call -> Proxy.Upstream)
    (req : Proxy.Request) :
  Proxy.method req ≠ "POST" →
  Proxy.handler key provider req
  = (Proxy.mkReply 405 (Proxy.Message "Method Not Allowed"), []).
Proof.
  intros Hm. unfold Proxy.handler.
  destruct (String.eqb_spec (Proxy.method req) "POST"); [done|]. done.
Qed.

(** With a key, a POST is forwarded once and the provider's status and
    body come back as they are. *)
Lemma handler_relays (key : string) (provider : Proxy.Call -> Proxy.Upstream)
    (req : Proxy.Request) (s : Z) (data : string) :
  Proxy.method req = "POST" → key ≠ "" →
  let call := Proxy.mkCall (Proxy.apiUrl key (Proxy.model req)) (Proxy.payload req) in
  provider call = Proxy.Answers s (Some data) →
  Proxy.handler key provider req = (Proxy.mkReply s (Proxy.Data data), [call]).
Proof.
  intros Hm Hk call Hp. unfold Proxy.handler. rewrite Hm. simpl.
  apply truthyStr_nonempty in Hk as ->. simpl. fold call. by rewrite Hp.
Qed.

(** * The properties of the specification *)

(** ** C1: admission within the spend cap *)



(** ** C7: vendors and order of the cart *)

(** C7.  With an allowlist of vendor names (none of them empty), every line
    [runForecasting] builds for a suggestion keeps the suggestion's vendor
    when the allowlist has it and otherwise takes the first vendor of the
    allowlist, or ['Unknown'] when the allowlist is empty; name, quantity
    and reason are the suggestion's.  The cart it sets is a subsequence of
    those lines in the order the model returned the suggestions: lines are
    left out, never moved. *)
Theorem cart_vendor_and_order (env : Env) (inventory : list InventoryItem.t)
    (cfg : UserConfig.t) (llm : LlmResult) (cart : list CartItem.t) :
  "" ∉ UserConfig.vendorAllowlist cfg →
  SetSuggestedCart cart ∈ runForecasting env inventory cfg llm →
  cart `sublist_of` imap (λ k it, cartLine cfg it (random env k)) (suggestedCart llm)
  ∧ ∀ it r,
      CartItem.vendor (cartLine cfg it r)
      = (if decide (Suggestion.vendor it ∈ UserConfig.vendorAllowlist cfg)
         then Suggestion.vendor it
         else default "Unknown" (head (UserConfig.vendorAllowlist cfg)))
      ∧ CartItem.name (cartLine cfg it r) = Suggestion.name it
      ∧ CartItem.quantity (cartLine cfg it r) = Suggestion.quantityToBuy it
      ∧ CartItem.reason (cartLine cfg it r) = Suggestion.reason it.
Proof.
  intros Hne Hcart. apply runForecasting_cart in Hcart as ->. split.
  - apply buildCart_sublist.
  - intros it r. simpl. by rewrite chooseVendor_allowlist.
Qed.

Lemma cart_vendor_and_order_witness :
  let cart :=
    [ CartItem.mk "Milk" 20 150 "Walmart" "Low stock";
      CartItem.mk "Coffee Beans" 20 150 "Amazon" "Low stock" ] in
  cart `sublist_of` imap (λ k it, cartLine initialConfig it 0.5) bulkSuggestions
  ∧ ∀ it r,
      CartItem.vendor (cartLine initialConfig it r)
      = (if decide (Suggestion.vendor it ∈ ["Amazon"; "Walmart"])
         then Suggestion.vendor it
         else "Amazon")
      ∧ CartItem.name (cartLine initialConfig it r) = Suggestion.name it
      ∧ CartItem.quantity (cartLine initialConfig it r) = Suggestion.quantityToBuy it
      ∧ CartItem.reason (cartLine initialConfig it r) = Suggestion.reason it.
Proof.
  apply (cart_vendor_and_order (drawing 0.5) stock initialConfig
           (mkLlmResult bulkSuggestions [])).
  - vm_compute. intros H. repeat (apply elem_of_cons in H as [H|H]; [discriminate H|]).
    by apply elem_of_nil in H.
  - vm_compute. elem_at 3.
Defined.

(** ** C2: the spend cap at commit time *)

(** C2.  The checkout does not keep the spend within the cap.  Under the
    seeded config (cap 500, spend 150) the model suggests three items of
    twenty units and each draw prices a unit at 5.8333: every item is
    admitted, since the costs the test adds up are 116.666 each, but the
    lines carry the rounded cost 116.67, and the checkout of that cart
    commits a spend of 500.01. *)
Theorem checkout_overshoots_cap :
  let env := drawing 0.16666 in
  let cart := newCart (buildCart initialConfig (random env) bulkSuggestions) in
  let s' := runEffects (handleCheckout env stock initialConfig cart) stockStore in
  SetSuggestedCart cart
    ∈ runForecasting env stock initialConfig (mkLlmResult bulkSuggestions [])
  ∧ map CartItem.cost cart = [116.67; 116.67; 116.67]%float
  ∧ UserConfig.currentMonthSpend (configDoc s') = (150 + (0 + 116.67 + 116.67 + 116.67))%float
  ∧ (UserConfig.currentMonthSpend (configDoc s')
     <=? UserConfig.spendCapMonthly (configDoc s'))%float = false.
Proof.
  cbv zeta. split; [|by vm_compute].
  by apply (runForecasting_sets_cart (drawing 0.16666) stock initialConfig
              (mkLlmResult bulkSuggestions [])).
Qed.

(** The checkout does not test the cap either when the cap was lowered
    after the cart was built: the cart [Milk x2] at 15 was built under a cap
    of 500 and stays in the component's state; with the cap set to 160 the
    checkout commits a spend of 165. *)
Example checkout_after_cap_lowered :
  let cfg := UserConfig.mk 160 150 ["Amazon"; "Walmart"] in
  let cart := [CartItem.mk "Milk" 2 15 "Amazon" "Low stock"] in
  let s' := runEffects (handleCheckout (drawing 0.5) stock cfg cart)
              (mkStore (inventoryDocs stockStore) [] cfg) in
  configDoc s' = UserConfig.mk 160 165 ["Amazon"; "Walmart"].
Proof. by vm_compute. Qed.

(** ** C3: the checkout *)

(** The example of the specification.  Milk is in stock with quantity 1,
    the model suggests two units, the draw prices a unit at 7.5: the cart
    is the one line [Milk x2] at 15, within the cap; the checkout commits,
    clears the cart and calls the forecast again, and leaves Milk at 3 with
    no forecast, the purchase in the history, and a spend of 150 + 15. *)
Lemma checkout_milk_example :
  let env := drawing 0.5 in
  let cart := [CartItem.mk "Milk" 2 15 "Amazon" "Low stock"] in
  let trace := handleCheckout env stock initialConfig cart in
  let s' := runEffects trace stockStore in
  SetSuggestedCart cart
    ∈ runForecasting env stock initialConfig (mkLlmResult [milkSuggestion] [])
  ∧ InventoryItem.quantity <$> inventoryDocs s' !! "3" = Some 3%float
  ∧ InventoryItem.predictedRunOutDate <$> inventoryDocs s' !! "3" = Some None
  ∧ UserConfig.currentMonthSpend (configDoc s') = (150 + 15)%float
  ∧ map HistoryEntry.quantity (historyDocs s') = [2%float]
  ∧ SetSuggestedCart [] ∈ trace
  ∧ RunForecasting ∈ trace.
Proof.
  cbv zeta. split.
  { vm_compute. elem_at 2. }
  do 4 (split; [by vm_compute|]). split.
  - elem_at 3.
  - elem_at 4.
Qed.

(** C3.  A cart with two lines for the same item does not add both to the
    inventory.  Milk is in stock with quantity 1 and the model suggests it
    twice, two units and three units; both lines are admitted.  The
    checkout logs both purchases and charges both, 15 + 22.5, but both
    writes start from the quantity the component held, and Milk ends at
    4 = 1 + 3 rather than 6. *)
Theorem checkout_repeated_line_lost :
  let env := drawing 0.5 in
  let suggestions :=
    [Suggestion.mk "Milk" 2 "Low stock" "Amazon"; Suggestion.mk "Milk" 3 "Weekly refill" "Amazon"] in
  let cart := newCart (buildCart initialConfig (random env) suggestions) in
  let s' := runEffects (handleCheckout env stock initialConfig cart) stockStore in
  SetSuggestedCart cart
    ∈ runForecasting env stock initialConfig (mkLlmResult suggestions [])
  ∧ map CartItem.quantity cart = [2; 3]%float
  ∧ map HistoryEntry.quantity (historyDocs s') = [2; 3]%float
  ∧ UserConfig.currentMonthSpend (configDoc s') = (150 + (0 + 15 + 22.5))%float
  ∧ InventoryItem.quantity <$> inventoryDocs s' !! "3" = Some 4%float.
Proof.
  cbv zeta. split; [|by vm_compute].
  by apply (runForecasting_sets_cart (drawing 0.5) stock initialConfig
              (mkLlmResult _ [])).
Qed.

(** ** C4: restocking an item *)

(** C4.  A batch with two entries for the same item does not add both to
    the inventory.  Milk is in stock with quantity 1 and the receipt lists
    it twice, two units and three units.  Both purchases are logged, but
    both writes start from the quantity the component held, and Milk ends
    at 4 = 1 + 3 rather than 6. *)
Theorem restock_repeated_entry_lost :
  let env := drawing 0.5 in
  let s' := runEffects (processUpdates env stock milkTwice) stockStore in
  map HistoryEntry.quantity (historyDocs s') = [2; 3]%float
  ∧ InventoryItem.quantity <$> inventoryDocs s' !! "3" = Some 4%float
  ∧ InventoryItem.predictedRunOutDate <$> inventoryDocs s' !! "3" = Some None.
Proof. by vm_compute. Qed.

(** ** C5: a new item *)



Example new_item_eggs :
  newItem (drawing 0.5) "id" eggs
  = InventoryItem.mk "id" "Eggs" 12 "units" 24 0.4 "2025-06-02T10:00:00.000Z" None.
Proof. by vm_compute. Qed.

(** ** C6: the forecast merge *)


Example forecast_merge_milk :
  let llm := mkLlmResult [] [Forecast.mk "MILK" "2025-06-09"; Forecast.mk "Bread" "2025-06-03"] in
  inventoryDocs (runEffects (runForecasting (drawing 0.5) stock initialConfig llm) stockStore)
  = <["3" := withForecast (Some "2025-06-09") milk]> (inventoryDocs stockStore).
Proof. by vm_compute. Qed.

(** ** C8: the retrying wrapper *)

(** C8 as stated fails on a failure that is not a 429 or 5xx response: a
    rejected [fetch] does not propagate at once.  Were it so, the wrapper
    would throw after one call on [flaky]; it waits and calls again. *)
Lemma network_failure_is_retried :
  ¬ (∀ (fetch : nat -> Fetch.Outcome) (jitter : nat -> float) (reason : string),
       fetch 0 = Fetch.Rejects reason →
       Fetch.fetchWithRetry fetch jitter 5
       = Fetch.mkRun (Fetch.Throws (Fetch.FetchError reason)) 1 []).
Proof.
  intros H. specialize (H flaky (λ _, 0.5%float) "Failed to fetch" eq_refl).
  vm_compute in H. discriminate H.
Qed.

Example flaky_run :
  Fetch.fetchWithRetry flaky (λ _, 0.5%float) 5
  = Fetch.mkRun (Fetch.Returns (Some (Fetch.mkResponse 200 (Some "")))) 2 [1500%float].
Proof. by vm_compute. Qed.

(** Five answers of 503: five calls, four waits, and the last error
    propagates; the caller logs it and returns its empty result. *)
Example unavailable_run :
  let fetch := λ _, Fetch.Responds (Fetch.mkResponse 503 None) in
  Fetch.fetchWithRetry fetch (λ _, 0.5%float) 5
  = Fetch.mkRun (Fetch.Throws (Fetch.HttpError 503)) 5 [1500; 2500; 4500; 8500]%float
  ∧ Fetch.callPredictiveEngine (λ _, None) fetch (λ _, 0.5%float)
    = (emptyLlmResult, [ConsoleError "LLM Prediction Error:"]).
Proof. by vm_compute. Qed.

(** An answer of 400 is returned at once; its body holds no candidate text
    and the caller returns its empty result without logging. *)
Example bad_request_run :
  let fetch := λ _, Fetch.Responds (Fetch.mkResponse 400 (Some "")) in
  Fetch.fetchWithRetry fetch (λ _, 0.5%float) 5
  = Fetch.mkRun (Fetch.Returns (Some (Fetch.mkResponse 400 (Some "")))) 1 []
  ∧ Fetch.callVisionAPI (λ _, None) fetch (λ _, 0.5%float) = ([], []).
Proof. by vm_compute. Qed.

(** C8, amended.  With five turns the wrapper calls [fetch] between one and
    five times.  Every call but the last was caught, that is: [fetch] was
    rejected, or the response had status 429 or 500 and above; after the
    call of turn [j] it waited [2^j * 1000] ms plus a jitter below 1000 ms
    times the draw.  The last call either was not caught, and its response
    is returned whatever its status, or it was the fifth, and what it threw
    propagates.  When the wrapper throws, each caller logs the error and
    returns its empty result. *)
Theorem fetchWithRetry_retries (fetch : nat -> Fetch.Outcome) (jitter : nat -> float) :
  let run := Fetch.fetchWithRetry fetch jitter 5 in
  ∃ n : nat,
    (n < 5)%nat
    ∧ Fetch.attempts run = S n
    ∧ (∀ j : nat, (j < n)%nat → Fetch.caught (fetch j) = true)
    ∧ Fetch.delays run = map (λ j, Fetch.backoff j (jitter j)) (seq 0 n)
    ∧ (Fetch.caught (fetch n) = false →
         ∃ r, fetch n = Fetch.Responds r ∧ Fetch.result run = Fetch.Returns (Some r))
    ∧ (Fetch.caught (fetch n) = true →
         n = 4%nat ∧ ∃ e, Fetch.result run = Fetch.Throws e)
    ∧ (∀ e, Fetch.result run = Fetch.Throws e →
         (∀ parse, Fetch.callVisionAPI parse fetch jitter
                   = ([], [ConsoleError "LLM Vision Error:"]))
         ∧ (∀ parse, Fetch.callPredictiveEngine parse fetch jitter
                     = (emptyLlmResult, [ConsoleError "LLM Prediction Error:"]))).
Proof.
  cbv zeta. unfold Fetch.fetchWithRetry.
  pose proof (retryLoop_run fetch jitter 5 0 4 eq_refl) as H. cbv zeta in H.
  destruct H as (n & Hn & Hat & Hc & Hd & Hr & Hl).
  exists n. cbn [Nat.add] in Hr, Hc, Hl.
  split; [lia|]. split; [done|]. split; [done|]. split; [done|]. split; [|split].
  - intros (r & Hf & Ha)%attempt_returns. exists r. by rewrite Hr, Ha.
  - intros Hcaught. split.
    + destruct (decide (n < 4)%nat) as [Hlt|]; [|lia].
      rewrite (Hl Hlt) in Hcaught. discriminate.
    + apply attempt_caught in Hcaught as [e He]. exists e. by rewrite Hr, He.
  - intros e He. unfold Fetch.callVisionAPI, Fetch.callPredictiveEngine, Fetch.degrade,
      Fetch.fetchWithRetry. by rewrite He.
Qed.

(** ** C9: the proxy without a key *)

(** C9.  A POST that arrives when [GEMINI_API_KEY] is not set is answered
    with status 500 and the message ['Server error: Key missing.'], and the
    handler calls the provider not once. *)
Theorem handler_missing_key (provider : Proxy.Call -> Proxy.Upstream)
    (req : Proxy.Request) :
  Proxy.method req = "POST" →
  Proxy.handler "" provider req
  = (Proxy.mkReply 500 (Proxy.Message "Server error: Key missing."), []).
Proof. intros Hm. unfold Proxy.handler. by rewrite Hm. Qed.

Lemma handler_missing_key_witness :
  Proxy.handler "" (λ _, Proxy.Answers 200 (Some "{}"))
    (Proxy.mkRequest "POST" "gemini-2.5-flash-preview-09-2025" "{}")
  = (Proxy.mkReply 500 (Proxy.Message "Server error: Key missing."), []).
Proof.
  apply (handler_missing_key (λ _, Proxy.Answers 200 (Some "{}"))
           (Proxy.mkRequest "POST" "gemini-2.5-flash-preview-09-2025" "{}")).
  reflexivity.
Defined.

(** ** C10: a manual edit discards the forecast *)


Example plus_button_milk :
  inventoryDocs (runEffects (plusButton (drawing 0.5) milk) stockStore) !! "3"
  = Some (InventoryItem.mk "3" "Milk" 2 "gallon" 2 0.2 "2025-06-02T10:00:00.000Z" None).
Proof. by vm_compute. Qed.

(** * Further properties of the code *)

(** ** Numbers *)

Lemma Prim2SF_zero : Prim2SF 0 = S754_zero false.
Proof. reflexivity. Qed.

Lemma Prim2SF_nan : Prim2SF nan = S754_nan.
Proof. reflexivity. Qed.

Lemma SFcompare_refl (f : spec_float) :
  f ≠ S754_nan → SFcompare f f = Some Eq.
Proof.
  destruct f as [s|s| |s m e]; simpl; intros H.
  - done.
  - by destruct s.
  - by destruct H.
  - destruct s; by rewrite Z.compare_refl, Pos.compare_cont_refl.
Qed.

(** [isNaN(x)] holds exactly of the value [NaN]. *)
Lemma is_nan_Prim2SF (x : float) : is_nan x = true ↔ Prim2SF x = S754_nan.
Proof.
  unfold is_nan. rewrite FloatAxioms.eqb_spec. unfold SFeqb. split.
  - intros H. destruct (Prim2SF x) as [s|s| |s m e] eqn:E; [| |done|];
      by rewrite SFcompare_refl in H.
  - by intros ->.
Qed.

Lemma is_nan_false (x : float) : is_nan x = false ↔ Prim2SF x ≠ S754_nan.
Proof.
  rewrite <- is_nan_Prim2SF. destruct (is_nan x); split; try done; congruence.
Qed.

(** A number that is neither [NaN] nor at most 0 is at least 0, and is not
    0. *)
Lemma above_zero (x : float) :
  is_nan x = false → (x <=? 0)%float = false →
  (0 <=? x)%float = true ∧ is_zero x = false.
Proof.
  unfold is_zero. rewrite is_nan_false, !leb_spec, FloatAxioms.eqb_spec, Prim2SF_zero.
  unfold SFleb, SFeqb.
  destruct (Prim2SF x) as [s|s| |s m e]; simpl; try done; by destruct s.
Qed.


(** A truthy number is not zero and not [NaN], and [parseFloat] keeps it. *)
Lemma truthy_parseFloat (x : float) :
  JS.truthy x = true → is_zero x = false ∧ is_nan x = false ∧ JS.parseFloat x = x.
Proof.
  unfold JS.truthy, JS.parseFloat. destruct (is_zero x), (is_nan x); simpl; try done.
Qed.

Lemma truthy_of_parseFloat (x : float) :
  JS.truthy (JS.parseFloat x) = JS.truthy x.
Proof.
  unfold JS.parseFloat. destruct (is_zero x) eqn:Hz; [|done].
  unfold JS.truthy. rewrite Hz. by vm_compute.
Qed.

(** [x || d] with a truthy [d] is truthy. *)
Lemma orNum_truthy (x d : float) : JS.truthy d = true → JS.truthy (JS.orNum x d) = true.
Proof. unfold JS.orNum. by destruct (JS.truthy x) eqn:H. Qed.

(** [x || d] is [NaN] only if [d] is. *)
Lemma orNum_not_nan (x d : float) : is_nan d = false → is_nan (JS.orNum x d) = false.
Proof.
  unfold JS.orNum. destruct (JS.truthy x) eqn:H; [|done].
  by destruct (truthy_parseFloat x H) as (_ & ? & _).
Qed.

(** Saving a saved number changes nothing: [parseFloat(y) || d] is a fixed
    point of itself when [d] is truthy or zero. *)
Lemma orNum_parseFloat_twice (x d : float) :
  JS.orNum (JS.parseFloat d) d = d →
  JS.orNum (JS.parseFloat (JS.orNum (JS.parseFloat x) d)) d
  = JS.orNum (JS.parseFloat x) d.
Proof.
  intros Hd. unfold JS.orNum at 2 3.
  destruct (JS.truthy (JS.parseFloat x)) eqn:H; [|done].
  destruct (truthy_parseFloat _ H) as (_ & _ & ->). unfold JS.orNum. by rewrite H.
Qed.

(** ** The proxy *)

(** X1.  The handler calls the provider at most once, and not at all unless
    the request is a POST and the key is set; a request that is not a POST
    is answered 405 ['Method Not Allowed'] whether the key is set or not;
    and a call it makes goes to the URL built from the model and the key and
    carries the payload of the request. *)
Theorem handler_guards (key : string) (provider : Proxy.Call -> Proxy.Upstream)
    (req : Proxy.Request) :
  let reply := fst (Proxy.handler key provider req) in
  let calls := snd (Proxy.handler key provider req) in
  (length calls ≤ 1)%nat
  ∧ (Proxy.method req ≠ "POST" →
       reply = Proxy.mkReply 405 (Proxy.Message "Method Not Allowed") ∧ calls = [])
  ∧ (calls ≠ [] → Proxy.method req = "POST" ∧ key ≠ "")
  ∧ (∀ c, c ∈ calls →
       c = Proxy.mkCall (Proxy.apiUrl key (Proxy.model req)) (Proxy.payload req)).
Proof.
  cbv zeta. unfold Proxy.handler.
  destruct (String.eqb_spec (Proxy.method req) "POST") as [Hm|Hm]; simpl.
  - destruct key as [|k0 key]; simpl.
    + split; [lia|]. split; [done|]. split; [done|]. by intros c ?%elem_of_nil.
    + destruct (provider _) as [s [data|]|]; simpl;
        (split; [lia|]); (split; [done|]); (split; [done|]);
        by intros c ->%list_elem_of_singleton.
  - split; [lia|]. split; [done|]. split; [done|]. by intros c ?%elem_of_nil.
Qed.



(** ** The retrying wrapper with any number of turns *)


(** X3.  Whatever [maxRetries] is, [fetchWithRetry] calls [fetch] at most
    [maxRetries] times and waits once between two calls; with no turn it
    returns [undefined] without a call, with a turn or more it returns a
    response or throws, and it throws only when the last turn was used. *)
Theorem fetchWithRetry_budget (fetch : nat -> Fetch.Outcome) (jitter : nat -> float)
    (maxRetries : nat) :
  let run := Fetch.fetchWithRetry fetch jitter maxRetries in
  (Fetch.attempts run ≤ maxRetries)%nat
  ∧ length (Fetch.delays run) = (Fetch.attempts run - 1)%nat
  ∧ (maxRetries = 0%nat → run = Fetch.mkRun (Fetch.Returns None) 0 [])
  ∧ ((0 < maxRetries)%nat → Fetch.result run ≠ Fetch.Returns None)
  ∧ (∀ e, Fetch.result run = Fetch.Throws e → Fetch.attempts run = maxRetries).
Proof.
  cbv zeta. unfold Fetch.fetchWithRetry. destruct maxRetries as [|t].
  - simpl. split; [lia|]. split; [done|]. split; [done|]. split; [lia|]. done.
  - pose proof (retryLoop_run fetch jitter (S t) 0 t eq_refl) as H. cbv zeta in H.
    destruct H as (n & Hn & Hat & _ & Hd & Hr & Hl). cbn [Nat.add] in Hr, Hl.
    rewrite Hat, Hd, Hr, length_map, length_seq.
    split; [lia|]. split; [lia|]. split; [done|]. split.
    + intros _. by destruct (Fetch.attempt (fetch n)).
    + intros e He. destruct (decide (n < t)%nat) as [Hlt|]; [|lia].
      apply Hl, attempt_returns in Hlt as (r & _ & Ha). by rewrite Ha in He.
Qed.

(** ** The client behind the proxy *)

(** X4.  With no key set on the server, a forecast request costs five calls
    of the proxy, each answered 500 and none forwarded to the provider; the
    wrapper then throws and [callPredictiveEngine] logs the error and
    returns the empty result. *)
Theorem missing_key_ends_in_empty_forecast (candidateText : string -> string)
    (provider : nat -> Proxy.Call -> Proxy.Upstream) (model payload : string)
    (parse : string -> option LlmResult) (jitter : nat -> float) :
  let req := clientRequest model payload in
  let fetch := throughProxy candidateText "" provider req in
  let run := Fetch.fetchWithRetry fetch jitter 5 in
  Fetch.attempts run = 5%nat
  ∧ Fetch.result run = Fetch.Throws (Fetch.HttpError 500)
  ∧ providerCalls "" provider req (Fetch.attempts run) = []
  ∧ Fetch.callPredictiveEngine parse fetch jitter
    = (emptyLlmResult, [ConsoleError "LLM Prediction Error:"]).
Proof. done. Qed.

(** ** Reading the receipt *)

Lemma untilComma_no_comma (s : string) : afterComma s = None → untilComma s = s.
Proof.
  induction s as [|c r IH]; simpl; [done|].
  destruct (Ascii.eqb c ","); [done|]. intros H. by rewrite IH.
Qed.

Lemma afterComma_app (header rest : string) :
  afterComma header = None →
  afterComma (header ++ String "," rest) = Some rest.
Proof.
  induction header as [|c r IH]; simpl; [done|].
  destruct (Ascii.eqb c ","); [done|]. apply IH.
Qed.

(** X5.  [imageToBase64] resolves with the payload of the data URL the
    reader produced: the text after the comma, in full, when neither the
    header before the comma nor the payload holds a comma (base64 text holds
    none); and it rejects when the reader fails. *)
Theorem imageToBase64_payload (header payload : string) :
  afterComma header = None → afterComma payload = None →
  imageToBase64 (Loaded (header ++ String "," payload)) = Some (Some payload)
  ∧ imageToBase64 ReadError = None.
Proof.
  intros Hh Hp. split; [|done]. unfold imageToBase64, secondField.
  rewrite afterComma_app by done. simpl. by rewrite untilComma_no_comma.
Qed.

Lemma imageToBase64_payload_witness :
  imageToBase64 (Loaded ("data:image/png;base64" ++ String "," "iVBORw0KGgo="))
  = Some (Some "iVBORw0KGgo=")
  ∧ imageToBase64 ReadError = None.
Proof.
  apply (imageToBase64_payload "data:image/png;base64" "iVBORw0KGgo=").
  - reflexivity.
  - reflexivity.
Defined.

(** ** [processUpdates] and the store *)

(** The writes of the loop leave the config alone and append their history
    records in order. *)
Lemma updatesBatch_store (env : Env) (inventory : list InventoryItem.t)
    (updates : list Update.t) (s : Store) :
  let s' := applyBatch (updatesBatch env inventory updates) s in
  configDoc s' = configDoc s
  ∧ historyDocs s' = historyDocs s ++ map (historyOfUpdate env) updates.
Proof.
  unfold updatesBatch. cbv zeta.
  assert (∀ k u, ∃ id it, updateWrites env inventory k u
                          = [SetHistory (historyOfUpdate env u); SetInventory id it])
    as Hshape.
  { intros k u. unfold updateWrites. destruct (findByName _ _); eauto. }
  revert s.
  induction updates as [|u l IH] using rev_ind; intros s.
  - simpl. by rewrite app_nil_r.
  - rewrite imap_app, concat_app, applyBatch_app. cbn [imap concat].
    destruct (IH s) as [Hc Hh].
    destruct (Hshape (length l + 0)%nat u) as (id & it & ->).
    unfold applyBatch at 1 3. simpl. rewrite Hc, Hh, map_app. simpl.
    by rewrite <- app_assoc.
Qed.

Lemma processUpdates_store (env : Env) (inventory : list InventoryItem.t)
    (updates : list Update.t) (s : Store) :
  runEffects (processUpdates env inventory updates) s
  = if ready env && commitOk env
    then applyBatch (updatesBatch env inventory updates) s
    else s.
Proof.
  unfold processUpdates. destruct (ready env); simpl; [|done].
  destruct updates as [|u l]; simpl; [by destruct (commitOk env)|].
  by destruct (commitOk env).
Qed.

(** X6.  [processUpdates] only ever appends to the purchase history and
    never touches the config: when the store is ready and the batch commits,
    the history grows by one record per entry, in the order of the entries;
    otherwise (store not ready, or the commit fails) the whole store is as
    it was, no inventory document written. *)
Theorem updates_append_history (env : Env) (inventory : list InventoryItem.t)
    (updates : list Update.t) (s : Store) :
  let s' := runEffects (processUpdates env inventory updates) s in
  configDoc s' = configDoc s
  ∧ historyDocs s'
    = historyDocs s
      ++ (if ready env && commitOk env then map (historyOfUpdate env) updates else [])
  ∧ (ready env && commitOk env = false → s' = s).
Proof.
  cbv zeta. rewrite processUpdates_store.
  destruct (updatesBatch_store env inventory updates s) as [Hc Hh].
  destruct (ready env && commitOk env); [done|]. by rewrite app_nil_r.
Qed.

(** X7.  The records [processUpdates] keeps hold usable numbers whatever
    the entry holds: the quantity logged for an entry is a number other than
    zero and [NaN], since a missing or zero quantity counts as one, and the
    cost is a number, a missing one counting as zero; and the logged method
    is never empty. *)
Theorem history_holds_numbers (env : Env) (u : Update.t) :
  let h := historyOfUpdate env u in
  JS.truthy (HistoryEntry.quantity h) = true
  ∧ is_nan (HistoryEntry.cost h) = false
  ∧ HistoryEntry.method h ≠ ""
  ∧ (JS.truthy (Update.quantity u) = false → HistoryEntry.quantity h = 1%float)
  ∧ (JS.truthy (Update.cost u) = false → HistoryEntry.cost h = 0%float).
Proof.
  cbv zeta. simpl. unfold purchasedQuantity, purchasedCost.
  split; [by apply orNum_truthy|]. split; [by apply orNum_not_nan|]. split.
  { by destruct (Update.method u). }
  split; intros H; unfold JS.orNum; by rewrite truthy_of_parseFloat, H.
Qed.

(** ** [handleImageUpload] *)


(** ** [addItemManually] *)



(** ** The vendor checkboxes *)

Lemma filter_other_elem (allowlist : list string) (v w : string) :
  w ∈ List.filter (λ x, negb (String.eqb x v)) allowlist ↔ w ∈ allowlist ∧ w ≠ v.
Proof.
  rewrite !list_elem_of_In, filter_In. split; intros [Hin Hne]; split; try done.
  - intros ->. by rewrite String.eqb_refl in Hne.
  - by apply negb_true_iff, String.eqb_neq.
Qed.

Lemma toggleVendor_elem (allowlist : list string) (v w : string) :
  w ∈ toggleVendor allowlist v → w = v ∨ w ∈ allowlist.
Proof.
  unfold toggleVendor. destruct (JS.includes allowlist v).
  - rewrite filter_other_elem. intros [? _]. by right.
  - rewrite elem_of_app, list_elem_of_singleton. intros [?|?]; [by right|by left].
Qed.

(** X10.  A click on the checkbox of a vendor flips whether the allowlist
    holds that vendor and changes this for no other vendor; it keeps an
    allowlist free of repetitions free of them; and a second click on the
    checkbox of a vendor the list did not hold gives the list back. *)
Theorem toggleVendor_flips (allowlist : list string) (v : string) :
  (v ∈ toggleVendor allowlist v ↔ v ∉ allowlist)
  ∧ (∀ w, w ≠ v → (w ∈ toggleVendor allowlist v ↔ w ∈ allowlist))
  ∧ (NoDup allowlist → NoDup (toggleVendor allowlist v))
  ∧ (v ∉ allowlist → toggleVendor (toggleVendor allowlist v) v = allowlist).
Proof.
  unfold toggleVendor.
  destruct (JS.includes allowlist v) eqn:Hin.
  - apply includes_elem_of in Hin. split; [|split; [|split]].
    + rewrite filter_other_elem. split; [by intros [_ ?]|done].
    + intros w Hw. rewrite filter_other_elem. split; [by intros [? _]|done].
    + intros Hnd. apply NoDup_ListNoDup, List.NoDup_filter. by apply NoDup_ListNoDup.
    + done.
  - assert (v ∉ allowlist) as Hout.
    { intros H%includes_elem_of. congruence. }
    split; [|split; [|split]].
    + split; [done|]. intros _. apply elem_of_app. right. by left.
    + intros w Hw. rewrite elem_of_app, list_elem_of_singleton. split; [|by left].
      by intros [?|?].
    + intros Hnd. apply NoDup_app. split; [done|]. split.
      * by intros w Hw ->%list_elem_of_singleton.
      * apply NoDup_singleton.
    + intros _.
      assert (JS.includes (allowlist ++ [v]) v = true) as ->.
      { apply includes_elem_of, elem_of_app. right. by left. }
      rewrite List.filter_app. simpl. rewrite String.eqb_refl. simpl. rewrite app_nil_r.
      clear Hin. induction allowlist as [|x l IH]; simpl; [done|].
      destruct (String.eqb_spec x v) as [->|Hne]; simpl.
      * destruct Hout. by left.
      * f_equal. apply IH. intros H. apply Hout. by right.
Qed.

(** The config after a sequence of checkbox clicks, each landing in the
    environment given with it, the component holding the stored config. *)
Lemma onToggleVendor_store (env : Env) (v : string) (s : Store) :
  runActions (onToggleVendor env (configDoc s) v) s
  = if ready env && commitOk env
    then mkStore (inventoryDocs s) (historyDocs s)
           (UserConfig.mk (UserConfig.spendCapMonthly (configDoc s))
              (UserConfig.currentMonthSpend (configDoc s))
              (toggleVendor (UserConfig.vendorAllowlist (configDoc s)) v))
    else s.
Proof.
  unfold onToggleVendor, updateConfig, runActions.
  by destruct (ready env), (commitOk env).
Qed.

(** X11.  Clicking checkboxes of the settings view never does more than
    change the allowlist: after any sequence of clicks on the three vendors
    offered, starting from a store whose allowlist holds offered vendors
    only, the allowlist still holds offered vendors only (so never the empty
    name), and the spend cap, the month's spend, the inventory and the
    history are as they were. *)
Theorem toggles_keep_offered_vendors (cs : list (Env * string)) (s : Store) :
  Forall (λ c, c.2 ∈ offeredVendors) cs →
  UserConfig.vendorAllowlist (configDoc s) ⊆ offeredVendors →
  let s' := foldl (λ s0 c, runActions (onToggleVendor c.1 (configDoc s0) c.2) s0) s cs in
  (UserConfig.vendorAllowlist (configDoc s') ⊆ offeredVendors)
  ∧ ("" ∉ UserConfig.vendorAllowlist (configDoc s'))
  ∧ UserConfig.spendCapMonthly (configDoc s') = UserConfig.spendCapMonthly (configDoc s)
  ∧ UserConfig.currentMonthSpend (configDoc s') = UserConfig.currentMonthSpend (configDoc s)
  ∧ inventoryDocs s' = inventoryDocs s
  ∧ historyDocs s' = historyDocs s.
Proof.
  intros Hcs. revert s. induction Hcs as [|[env v] cs Hv _ IH]; intros s Hs; cbv zeta.
  - simpl. split; [done|]. split; [|done]. intros H%Hs.
    repeat (apply elem_of_cons in H as [H|H]; [discriminate H|]). by apply elem_of_nil in H.
  - simpl. rewrite onToggleVendor_store.
    destruct (ready env && commitOk env); [|by apply IH].
    match goal with |- context [foldl ?f ?s0 cs] => destruct (IH s0) as (H1 & H2 & H3 & H4 & H5 & H6) end.
    { simpl. intros w [->|Hw]%toggleVendor_elem; [done|by apply Hs]. }
    done.
Qed.

Lemma toggles_keep_offered_vendors_witness :
  let cs := [(drawing 0.5, "Local Grocer"); (drawing 0.5, "Amazon")] in
  let s' := foldl (λ s0 c, runActions (onToggleVendor c.1 (configDoc s0) c.2) s0)
              stockStore cs in
  (UserConfig.vendorAllowlist (configDoc s') ⊆ offeredVendors)
  ∧ ("" ∉ UserConfig.vendorAllowlist (configDoc s'))
  ∧ UserConfig.spendCapMonthly (configDoc s') = UserConfig.spendCapMonthly (configDoc stockStore)
  ∧ UserConfig.currentMonthSpend (configDoc s') = UserConfig.currentMonthSpend (configDoc stockStore)
  ∧ inventoryDocs s' = inventoryDocs stockStore
  ∧ historyDocs s' = historyDocs stockStore.
Proof.
  apply (toggles_keep_offered_vendors
           [(drawing 0.5, "Local Grocer"); (drawing 0.5, "Amazon")] stockStore).
  - constructor; [simpl; elem_at 2|]. constructor; [simpl; elem_at 0|]. constructor.
  - simpl. intros w Hw.
    apply elem_of_cons in Hw as [->|Hw]; [elem_at 0|].
    apply list_elem_of_singleton in Hw as ->. elem_at 1.
Defined.

Example toggles_of_the_seeded_allowlist :
  foldl toggleVendor ["Amazon"; "Walmart"] ["Local Grocer"; "Amazon"; "Amazon"]
  = ["Walmart"; "Local Grocer"; "Amazon"].
Proof. reflexivity. Qed.

(** ** Deleting a row *)

(** X12.  [deleteInventoryItem] removes the document of the given id and
    nothing else: every other inventory document, the history and the config
    are as they were; when db or userId is missing, or [deleteDoc] fails,
    the store is as it was. *)
Theorem delete_removes_only_that_row (env : Env) (itemId : string) (s : Store) :
  let s' := runActions (deleteInventoryItem env itemId) s in
  historyDocs s' = historyDocs s
  ∧ configDoc s' = configDoc s
  ∧ (∀ id, id ≠ itemId → inventoryDocs s' !! id = inventoryDocs s !! id)
  ∧ (ready env && commitOk env = true → inventoryDocs s' !! itemId = None)
  ∧ (ready env && commitOk env = false → s' = s).
Proof.
  cbv zeta. unfold deleteInventoryItem, runActions.
  destruct (ready env), (commitOk env); simpl; repeat split; try done.
  - intros id Hne. by rewrite lookup_delete_ne.
  - intros _. by rewrite lookup_delete_eq.
Qed.

Lemma click_deletes (env : Env) (pending : option string) (c : Click)
    (pending' : option string) (acts : list Action) (id : string) :
  click env pending c = Some (pending', acts) → DeleteDoc id ∈ acts →
  c = ClickConfirm id ∧ pending = Some id.
Proof.
  destruct c as [i|i|i|item|item]; simpl.
  - case_bool_decide as Hp; [done|]. intros [= <- <-] Hin. by apply elem_of_nil in Hin.
  - case_bool_decide as Hp; [|done]. intros [= <- <-]. unfold deleteInventoryItem.
    destruct (ready env), (commitOk env); simpl; intros Hin;
      repeat (apply elem_of_cons in Hin as [Hin|Hin]; [try discriminate Hin|]);
      try (by apply elem_of_nil in Hin).
    by injection Hin as ->.
  - case_bool_decide as Hp; [|done]. intros [= <- <-] Hin. by apply elem_of_nil in Hin.
  - intros [= <- <-] Hin. apply list_elem_of_fmap in Hin as (e & Hin & _). discriminate Hin.
  - intros [= <- <-] Hin. apply list_elem_of_fmap in Hin as (e & Hin & _). discriminate Hin.
Qed.

Lemma click_arms (env : Env) (pending : option string) (c : Click)
    (pending' : option string) (acts : list Action) (id : string) :
  click env pending c = Some (pending', acts) → pending' = Some id →
  c = ClickTrash id ∨ pending = Some id.
Proof.
  destruct c as [i|i|i|item|item]; simpl.
  - case_bool_decide as Hp; [done|]. intros [= <- <-] [= ->]. by left.
  - case_bool_decide as Hp; [|done].
    destruct (ready env); intros [= <- <-] Hq; [done|by right].
  - case_bool_decide as Hp; [|done]. by intros [= <- <-] Hq.
  - unfold pendingAfterUpdate. destruct (_ && _); intros [= <- <-] Hq; [done|by right].
  - unfold pendingAfterUpdate. destruct (_ && _); intros [= <- <-] Hq; [done|by right].
Qed.

Lemma clicks_delete_armed (cs : list (Env * Click)) (pending final : option string)
    (acts : list Action) (id : string) :
  clicks pending cs = Some (final, acts) → DeleteDoc id ∈ acts →
  ∃ pre env post,
    cs = pre ++ (env, ClickConfirm id) :: post
    ∧ (pending = Some id ∨ ∃ env', (env', ClickTrash id) ∈ pre).
Proof.
  revert pending final acts. induction cs as [|[env c] cs IH]; intros pending final acts.
  - simpl. intros [= <- <-] H. by apply elem_of_nil in H.
  - simpl. destruct (click env pending c) as [[pending' acts1]|] eqn:Hc; [|done].
    destruct (clicks pending' cs) as [[final' acts2]|] eqn:Hcs; [|done].
    intros [= <- <-] [Hin|Hin]%elem_of_app.
    + destruct (click_deletes _ _ _ _ _ _ Hc Hin) as [-> ->].
      exists [], env, cs. split; [done|by left].
    + destruct (IH _ _ _ Hcs Hin) as (pre & env0 & post & -> & Harm).
      exists ((env, c) :: pre), env0, post. split; [done|].
      destruct Harm as [Hp|(env' & Hin')].
      * destruct (click_arms _ _ _ _ _ _ Hc Hp) as [->|Hp']; [|by left].
        right. exists env. by left.
      * right. exists env'. by right.
Qed.

(** X13.  No row is deleted on one click.  In any sequence of clicks on the
    inventory table that starts with no row awaiting confirmation, a
    document is deleted only by a click on [Confirm Delete?] of its row, and
    the trash button of that row was clicked before it. *)
Theorem no_delete_without_confirmation (cs : list (Env * Click))
    (final : option string) (acts : list Action) (id : string) :
  clicks None cs = Some (final, acts) → DeleteDoc id ∈ acts →
  ∃ pre env post,
    cs = pre ++ (env, ClickConfirm id) :: post
    ∧ ∃ env', (env', ClickTrash id) ∈ pre.
Proof.
  intros Hcs Hin.
  destruct (clicks_delete_armed cs None final acts id Hcs Hin)
    as (pre & env & post & -> & [Hp|Harm]); [done|].
  by exists pre, env, post.
Qed.

Lemma no_delete_without_confirmation_witness :
  ∃ pre env post,
    [(drawing 0.5, ClickTrash "3"); (drawing 0.5, ClickConfirm "3")]
    = pre ++ (env, ClickConfirm "3") :: post
    ∧ ∃ env', (env', ClickTrash "3") ∈ pre.
Proof.
  apply (no_delete_without_confirmation
           [(drawing 0.5, ClickTrash "3"); (drawing 0.5, ClickConfirm "3")]
           None [DeleteDoc "3"; Did (LogAudit "Inventory Deletion" ["3"])] "3").
  - reflexivity.
  - elem_at 0.
Defined.

(** A click on [Confirm Delete?] is not on offer for a row that is not
    armed, and the trash button arms one row at a time. *)
Example confirm_needs_trash :
  clicks None [(drawing 0.5, ClickConfirm "3")] = None
  ∧ clicks None [(drawing 0.5, ClickTrash "3"); (drawing 0.5, ClickTrash "4");
                 (drawing 0.5, ClickConfirm "3")] = None.
Proof. by vm_compute. Qed.

(** ** What [updateInventory] saves *)

(** X14.  The document [updateInventory] saves holds numbers only, whatever
    the item it was given holds: the quantity is not [NaN], the restock
    level and the daily use are neither zero nor [NaN]; it has an id and a
    unit; and saving the saved document again saves the same document. *)
Theorem saved_item_is_clean (env : Env) (item : InventoryItem.t) :
  let w := sanitizedItem env item in
  is_nan (InventoryItem.quantity w) = false
  ∧ JS.truthy (InventoryItem.restockLevel w) = true
  ∧ JS.truthy (InventoryItem.dailyUse w) = true
  ∧ InventoryItem.unit w ≠ ""
  ∧ (randomUUID env 0 ≠ "" → InventoryItem.id w ≠ "")
  ∧ sanitizedItem env w = w.
Proof.
  cbv zeta. unfold sanitizedItem. simpl.
  split; [by apply orNum_not_nan|]. split; [by apply orNum_truthy|].
  split; [by apply orNum_truthy|]. split; [by destruct (InventoryItem.unit item)|].
  split; [by destruct (InventoryItem.id item)|].
  rewrite !orNum_parseFloat_twice by done. f_equal.
  - by destruct (InventoryItem.id item), (randomUUID env 0).
  - by destruct (InventoryItem.unit item).
  - by destruct (InventoryItem.lastUsed item), (now env).
Qed.

(** X15.  The [-] button never saves a quantity below zero: whatever
    quantity the row holds, the quantity written is a number at least
    zero. *)
Theorem minus_never_negative (env : Env) (item : InventoryItem.t) (id : string)
    (w : InventoryItem.t) :
  SetDoc id w ∈ minusButton env item →
  (0 <=? InventoryItem.quantity w)%float = true
  ∧ is_nan (InventoryItem.quantity w) = false.
Proof.
  unfold minusButton, updateInventory.
  destruct (ready env), (commitOk env); simpl; intros H;
    try (by apply elem_of_nil in H);
    apply list_elem_of_singleton in H; [|discriminate H].
  injection H as _ ->. simpl. split; [|by apply orNum_not_nan].
  set (y := (JS.orNum (InventoryItem.quantity item) 0 - 1)%float).
  unfold JS.orNum at 1. destruct (JS.truthy (JS.parseFloat (max0 y))) eqn:Ht; [|done].
  rewrite truthy_of_parseFloat in Ht.
  destruct (truthy_parseFloat _ Ht) as (Hz & Hn & ->).
  unfold max0 in *. destruct (is_nan y) eqn:Hy; [done|].
  destruct (y <=? 0)%float eqn:Hle; [done|].
  by apply above_zero.
Qed.

Lemma minus_never_negative_witness :
  (0 <=? 0)%float = true ∧ is_nan 0 = false.
Proof.
  apply (minus_never_negative (drawing 0.5) coffeeBeans "1"
           (InventoryItem.mk "1" "Coffee Beans" 0 "bags" 1 0.1
              "2025-06-02T10:00:00.000Z" None)).
  vm_compute. elem_at 0.
Defined.

(** ** The checkout *)







(** X18.  A checkout that commits charges and logs every line: the month's
    spend becomes the spend the component held plus the total of the line
    costs, the history grows by one record per line, in the order of the
    cart, each under the method ['Agent Auto']; after the commit the cart is
    replaced by the empty cart and the forecast is called again, each
    once. *)
Theorem checkout_charges_and_logs (env : Env) (inventory : list InventoryItem.t)
    (cfg : UserConfig.t) (cart : list CartItem.t) (s : Store) :
  commitOk env = true → cart ≠ [] →
  let trace := handleCheckout env inventory cfg cart in
  let s' := runEffects trace s in
  UserConfig.currentMonthSpend (configDoc s')
    = (UserConfig.currentMonthSpend cfg + cartTotal cart)%float
  ∧ UserConfig.spendCapMonthly (configDoc s') = UserConfig.spendCapMonthly (configDoc s)
  ∧ UserConfig.vendorAllowlist (configDoc s') = UserConfig.vendorAllowlist (configDoc s)
  ∧ historyDocs s' = historyDocs s ++ map (historyOfLine env) cart
  ∧ Forall (λ h, HistoryEntry.method h = "Agent Auto") (map (historyOfLine env) cart)
  ∧ (∃ batch audit audit',
       trace = [audit; Commit batch; audit'; SetSuggestedCart []; RunForecasting]).
Proof.
  intros Hc Hne. cbv zeta. rewrite handleCheckout_commits by done.
  unfold runEffects, checkoutBatch. cbn [foldl applyEffect]. rewrite applyBatch_app.
  destruct (checkoutWrites_store env inventory cart s) as [Hcfg Hh]. cbv zeta in Hcfg, Hh.
  change (applyBatch [UpdateSpend ?v] ?s0)
    with (mkStore (inventoryDocs s0) (historyDocs s0) (withSpend v (configDoc s0))).
  cbn [configDoc historyDocs withSpend UserConfig.currentMonthSpend
       UserConfig.spendCapMonthly UserConfig.vendorAllowlist].
  rewrite Hcfg, Hh.
  split; [done|]. split; [done|]. split; [done|]. split; [done|]. split; [|by eauto].
  apply Forall_forall. intros h Hin.
  by apply list_elem_of_In, in_map_iff in Hin as (l & <- & _).
Qed.

Lemma checkout_charges_and_logs_witness :
  let cart := [CartItem.mk "Milk" 2 15 "Amazon" "Low stock";
               CartItem.mk "Bread" 1 7.5 "Amazon" "Running low"] in
  let trace := handleCheckout (drawing 0.5) stock initialConfig cart in
  let s' := runEffects trace stockStore in
  UserConfig.currentMonthSpend (configDoc s') = (150 + cartTotal cart)%float
  ∧ UserConfig.spendCapMonthly (configDoc s') = 500%float
  ∧ UserConfig.vendorAllowlist (configDoc s') = ["Amazon"; "Walmart"]
  ∧ historyDocs s' = [] ++ map (historyOfLine (drawing 0.5)) cart
  ∧ Forall (λ h, HistoryEntry.method h = "Agent Auto") (map (historyOfLine (drawing 0.5)) cart)
  ∧ (∃ batch audit audit',
       trace = [audit; Commit batch; audit'; SetSuggestedCart []; RunForecasting]).
Proof.
  apply (checkout_charges_and_logs (drawing 0.5) stock initialConfig
           [CartItem.mk "Milk" 2 15 "Amazon" "Low stock";
            CartItem.mk "Bread" 1 7.5 "Amazon" "Running low"] stockStore).
  - reflexivity.
  - discriminate.
Defined.






(** ** The cart and the forecast of [runForecasting] *)




(** A cost that is [NaN], a spend that is [NaN] or a cap that is [NaN]
    fails the admission test. *)
Lemma withinCap_nan (cfg : UserConfig.t) (total cost : float) :
  is_nan cost = true ∨ is_nan (UserConfig.spendCapMonthly cfg) = true
  ∨ is_nan (UserConfig.currentMonthSpend cfg) = true →
  withinCap cfg total cost = false.
Proof.
  unfold withinCap. rewrite leb_spec, !add_spec, !is_nan_Prim2SF.
  unfold SFleb, SF64add. intros [-> | [-> | ->]].
  - by destruct (SFadd prec emax (Prim2SF _) (Prim2SF total)) as [[]|[]| |[]].
  - by destruct (SFadd prec emax (SFadd _ _ _ _) (Prim2SF cost)) as [[]|[]| |[]].
  - done.
Qed.

Lemma itemCost_nan (it : Suggestion.t) (r : float) :
  is_nan (Suggestion.quantityToBuy it) = true → is_nan (itemCost it r) = true.
Proof.
  unfold itemCost. rewrite !is_nan_Prim2SF, mul_spec. by intros ->.
Qed.

(** X22.  A suggestion without a usable quantity never enters the cart:
    every line of the cart a forecast run sets holds a quantity that is a
    number, whatever the model returned; and when the spend cap or the
    month's spend of the config is [NaN] the cart it sets is empty. *)
Theorem cart_holds_numbers (env : Env) (inventory : list InventoryItem.t)
    (cfg : UserConfig.t) (llm : LlmResult) (cart : list CartItem.t) :
  SetSuggestedCart cart ∈ runForecasting env inventory cfg llm →
  Forall (λ line, is_nan (CartItem.quantity line) = false) cart
  ∧ (is_nan (UserConfig.spendCapMonthly cfg) = true
     ∨ is_nan (UserConfig.currentMonthSpend cfg) = true → cart = []).
Proof.
  intros ->%runForecasting_cart. split.
  - apply Forall_forall. intros line (k & it & _ & -> & Hok)%buildCart_admission.
    simpl. destruct (is_nan (Suggestion.quantityToBuy it)) eqn:Hq; [|done].
    change (withinCap cfg (totalCost (buildCart cfg (random env)
              (take k (suggestedCart llm)))) (itemCost it (random env k)) = true) in Hok.
    rewrite withinCap_nan in Hok; [done|]. left. by apply itemCost_nan.
  - intros Hnan.
    destruct (newCart (buildCart cfg (random env) (suggestedCart llm))) as [|line rest] eqn:Hc;
      [done|].
    destruct (buildCart_admission cfg (random env) (suggestedCart llm) line)
      as (k & it & _ & _ & Hok); [rewrite Hc; by left|].
    change (withinCap cfg (totalCost (buildCart cfg (random env)
              (take k (suggestedCart llm)))) (itemCost it (random env k)) = true) in Hok.
    rewrite withinCap_nan in Hok; [done|]. by right.
Qed.

Lemma cart_holds_numbers_witness :
  let cart := [CartItem.mk "Milk" 2 15 "Amazon" "Low stock"] in
  Forall (λ line, is_nan (CartItem.quantity line) = false) cart
  ∧ (is_nan 500 = true ∨ is_nan 150 = true → cart = []).
Proof.
  apply (cart_holds_numbers (drawing 0.5) stock initialConfig
           (mkLlmResult [milkSuggestion; Suggestion.mk "Bread" nan "" ""] [])).
  vm_compute. elem_at 3.
Defined.

(** ** Running the forecast twice *)











(** ** Rows that share a name *)






(** ** Seeding an account *)

(** X25.  [initializeUserData] seeds an account once and never overwrites:
    on an account that already holds a config it changes nothing, whatever
    the store answers; after a call that seeded, every later call changes
    nothing; and a call that seeds an account without config stores the
    start config, appends the start history to what the account holds and,
    when the ids of the start inventory are distinct, stores every start
    item under its id. *)
Theorem initializeUserData_seeds_once (getOk commitOk getOk' commitOk' : bool)
    (initialInventory : list InventoryItem.t) (initialHistory : list HistoryEntry.t)
    (a : Account) :
  (is_Some (configOf a) →
   initializeUserData getOk commitOk initialInventory initialHistory a = a)
  ∧ (let a1 := initializeUserData true true initialInventory initialHistory a in
     initializeUserData getOk' commitOk' initialInventory initialHistory a1 = a1)
  ∧ (configOf a = None →
     let a1 := initializeUserData true true initialInventory initialHistory a in
     configOf a1 = Some initialConfig
     ∧ historyOf a1 = historyOf a ++ initialHistory
     ∧ (NoDup (map InventoryItem.id initialInventory) →
        ∀ it, it ∈ initialInventory →
              inventoryOf a1 !! InventoryItem.id it = Some it)).
Proof.
  unfold initializeUserData. split; [|split].
  - intros [c Hc]. rewrite Hc. by destruct (negb getOk).
  - cbv zeta. simpl. destruct (configOf a) as [c|] eqn:Hc.
    + rewrite Hc. by destruct (negb getOk').
    + simpl. by destruct (negb getOk').
  - intros Hc. cbv zeta. rewrite Hc. simpl. split; [done|]. split; [done|].
    generalize (inventoryOf a).
    induction initialInventory as [|x l IH] using rev_ind; intros m Hnd it Hit.
    + by apply elem_of_nil in Hit.
    + rewrite foldl_snoc. rewrite map_app in Hnd. simpl in Hnd.
      apply NoDup_app in Hnd as (Hl & Hx & _).
      apply elem_of_app in Hit as [Hit|Hit].
      * rewrite lookup_insert_ne; [by apply IH|].
        intros E. apply (Hx (InventoryItem.id it)).
        -- apply list_elem_of_fmap. by exists it.
        -- rewrite <- E. by left.
      * apply list_elem_of_singleton in Hit. subst it. by rewrite lookup_insert_eq.
Qed.

(** ** The forecast that follows a restock *)

Lemma applyBatch_cleared (ws : list Write) (s : Store) (id : string) :
  (∀ w, w ∈ ws → clearsForecast w) →
  (∃ w, w ∈ ws ∧ targets id w) →
  ∃ it, inventoryDocs (applyBatch ws s) !! id = Some it
        ∧ InventoryItem.predictedRunOutDate it = None.
Proof.
  induction ws as [|w ws IH] using rev_ind; intros Hc (w0 & Hw0 & Ht).
  - by apply elem_of_nil in Hw0.
  - rewrite applyBatch_app.
    assert (clearsForecast w) as Hw by (apply Hc, elem_of_app; right; by left).
    destruct w as [h|id' it|id' d|v]; simpl in Hw; try done.
    + apply elem_of_app in Hw0 as [Hw0|Hw0].
      * destruct IH as (it & Hit & Hp); [intros w' Hw'; apply Hc, elem_of_app; by left
                                        |by exists w0|].
        by exists it.
      * apply list_elem_of_singleton in Hw0. by subst w0.
    + destruct (decide (id' = id)) as [->|Hne].
      * exists it. split; [|done]. unfold applyBatch. simpl. by rewrite lookup_insert_eq.
      * apply elem_of_app in Hw0 as [Hw0|Hw0].
        -- destruct IH as (it0 & Hit & Hp);
             [intros w' Hw'; apply Hc, elem_of_app; by left|by exists w0|].
           exists it0. split; [|done]. unfold applyBatch at 1. simpl.
           by rewrite lookup_insert_ne.
        -- apply list_elem_of_singleton in Hw0. subst w0. simpl in Ht. done.
    + apply elem_of_app in Hw0 as [Hw0|Hw0].
      * destruct IH as (it & Hit & Hp); [intros w' Hw'; apply Hc, elem_of_app; by left
                                        |by exists w0|].
        by exists it.
      * apply list_elem_of_singleton in Hw0. by subst w0.
Qed.

Lemma updatesBatch_clears (env : Env) (inventory : list InventoryItem.t)
    (updates : list Update.t) (w : Write) :
  w ∈ updatesBatch env inventory updates → clearsForecast w.
Proof.
  unfold updatesBatch. intros Hw.
  apply list_elem_of_In, in_concat in Hw as (ws & Hws & Hw).
  apply list_elem_of_In, list_elem_of_lookup in Hws as (k & Hk).
  rewrite list_lookup_imap in Hk.
  destruct (updates !! k) as [u|] eqn:Hu; [|done]. injection Hk as <-.
  apply list_elem_of_In in Hw. unfold updateWrites in Hw.
  apply elem_of_cons in Hw as [->|Hw]; [done|].
  apply list_elem_of_singleton in Hw. subst w.
  by destruct (findByName inventory (Update.name u)).
Qed.

(** X26.  A committed batch of purchases always calls for a forecast: in
    the snapshot of the inventory after [processUpdates] committed a batch
    that is not empty, some row lacks its run-out date, so the condition
    of the automatic forecast holds for any purchase history that is not
    empty, even while a suggested cart is shown. *)
Theorem restock_calls_for_forecast (env : Env) (inventory : list InventoryItem.t)
    (updates : list Update.t) (s : Store) (purchaseHistory : list HistoryEntry.t)
    (cart : list CartItem.t) :
  ready env = true → commitOk env = true → updates ≠ [] → purchaseHistory ≠ [] →
  let s' := runEffects (processUpdates env inventory updates) s in
  needsForecast (snapshotInventory (inventoryDocs s')) = true
  ∧ autoForecast true (snapshotInventory (inventoryDocs s')) purchaseHistory cart = true.
Proof.
  intros Hr Hc Hu Hh. cbv zeta. rewrite processUpdates_store, Hr, Hc. simpl.
  destruct updates as [|u0 us]; [done|].
  destruct (applyBatch_cleared (updatesBatch env inventory (u0 :: us)) s
              (updateTarget env inventory 0 u0)) as (it & Hit & Hp).
  { intros w. apply updatesBatch_clears. }
  { unfold updatesBatch. simpl.
    eexists. split; [right; left|]. unfold updateTarget.
    by destruct (findByName inventory (Update.name u0)). }
  assert (withId (updateTarget env inventory 0 u0) it
          ∈ snapshotInventory (inventoryDocs
              (applyBatch (updatesBatch env inventory (u0 :: us)) s))) as Hin.
  { unfold snapshotInventory. apply list_elem_of_fmap.
    exists (updateTarget env inventory 0 u0, it). split; [done|].
    by apply elem_of_map_to_list. }
  assert (needsForecast (snapshotInventory (inventoryDocs
            (applyBatch (updatesBatch env inventory (u0 :: us)) s))) = true) as Hn.
  { unfold needsForecast. apply existsb_exists.
    exists (withId (updateTarget env inventory 0 u0) it).
    split; [by apply list_elem_of_In|]. unfold lacksForecast. simpl. by rewrite Hp. }
  split; [done|]. unfold autoForecast. rewrite Hn, orb_true_r, andb_true_r. simpl.
  apply andb_true_intro. split.
  - destruct (snapshotInventory _) as [|x l]; [by apply elem_of_nil in Hin|done].
  - by destruct purchaseHistory.
Qed.

Lemma restock_calls_for_forecast_witness :
  let s' := runEffects (processUpdates (drawing 0.5) stock [eggs]) stockStore in
  needsForecast (snapshotInventory (inventoryDocs s')) = true
  ∧ autoForecast true (snapshotInventory (inventoryDocs s'))
      [historyOfUpdate (drawing 0.5) eggs]
      [CartItem.mk "Milk" 2 15 "Amazon" "Low stock"] = true.
Proof.
  apply (restock_calls_for_forecast (drawing 0.5) stock [eggs] stockStore
           [historyOfUpdate (drawing 0.5) eggs]
           [CartItem.mk "Milk" 2 15 "Amazon" "Low stock"]);
    [reflexivity|reflexivity|discriminate|discriminate].
Defined.

(** ** The spend-cap field *)

(** X27.  The spend-cap field of the settings view never stores [NaN]: if
    the cap the store holds is a number it is one after an edit of the
    field, whatever the field held and whether or not the write went
    through.  A write that goes through stores the value of the field when
    it is a number other than 0, and 0 otherwise (an emptied field); the
    inventory and the history are not touched. *)
Theorem spend_cap_field_saves_a_number (env : Env) (userConfig : UserConfig.t)
    (value : float) (s : Store) :
  is_nan (UserConfig.spendCapMonthly (configDoc s)) = false →
  let s' := runActions (onSpendCap env userConfig value) s in
  is_nan (UserConfig.spendCapMonthly (configDoc s')) = false
  ∧ (ready env = true → commitOk env = true →
     UserConfig.spendCapMonthly (configDoc s')
     = if JS.truthy value then value else 0%float)
  ∧ inventoryDocs s' = inventoryDocs s
  ∧ historyDocs s' = historyDocs s.
Proof.
  intros Hs. cbv zeta. unfold onSpendCap, updateConfig.
  destruct (ready env); simpl; [|by repeat split].
  destruct (commitOk env); simpl; [|by repeat split].
  split; [by apply orNum_not_nan|]. split; [|done]. intros _ _.
  unfold JS.orNum. rewrite truthy_of_parseFloat.
  destruct (JS.truthy value) eqn:Hv; [|done].
  by apply truthy_parseFloat in Hv as (_ & _ & ->).
Qed.

Lemma spend_cap_field_saves_a_number_witness :
  let s' := runActions (onSpendCap (drawing 0.5) initialConfig nan) stockStore in
  is_nan (UserConfig.spendCapMonthly (configDoc s')) = false
  ∧ (ready (drawing 0.5) = true → commitOk (drawing 0.5) = true →
     UserConfig.spendCapMonthly (configDoc s')
     = if JS.truthy nan then nan else 0%float)
  ∧ inventoryDocs s' = inventoryDocs stockStore
  ∧ historyDocs s' = historyDocs stockStore.
Proof.
  apply (spend_cap_field_saves_a_number (drawing 0.5) initialConfig nan stockStore).
  reflexivity.
Defined.
